(** * FileStoreForwarder: the dump bot of [src/bot.py]

    A shallow embedding of the bot: the registry (class [Database]), the
    message and callback handlers with the filters of their decorators, the
    two health surfaces, and the order in which the handlers are
    registered.  The properties of the specification are stated over it.

    Conventions of the embedding.
    - A Python [str] is a [string], the UTF-8 bytes of the text; where
      Python looks at characters ([strip], [int]) the bytes are decoded.
      White space and decimal digits are those of Unicode 14.0 (CPython
      3.11).
    - A Python [int] is a [Z]; [None] is the [None] of an [option]; the
      truth value that an [if] takes of a value is written out
      ([truthy_text], [truthy_doc], [truthy_channel]).
    - The users collection is a finite map from [_id] to documents, a
      document a finite map from field names to integers.
    - A handler is a computation over a [World]: it may return or raise.
      Every [await] on the store or on Telegram may raise; the outcome of
      each such call is read from the world ([upcoming]), so that a
      property can quantify over every way the outside may answer.  Every
      call is recorded, with its outcome, in the [trace] of the world.
    - Exceptions are the subclasses of [Exception]; the classes that the
      [except] clauses of the bot tell apart are kept apart.

    Not modelled: the loading of the environment, the start of the bot and
    of the web server ([Bot.start], [start_web]), the [logger.info] lines
    written there. *)

From Stdlib Require Import ZArith String Ascii List.
From stdpp Require Import gmap strings pretty.

Open Scope string_scope.
Open Scope list_scope.
Open Scope Z_scope.

(** ** Python strings *)

Module Py.

(** *** Characters *)

(** A text is kept as its UTF-8 bytes; [chars] reads the characters (code
    points) out of them.  A byte sequence that is not well formed, which a
    Python [str] never gives, is read as U+FFFD. *)
Definition byte (c : ascii) : N := N_of_ascii c.

(** The six low bits of a continuation byte. *)
Definition continuation (c : ascii) : option N :=
  let b := byte c in
  if ((128 <=? b) && (b <? 192))%N then Some (b - 128)%N else None.

Definition replacement : N := 65533.

Fixpoint chars (s : string) : list N :=
  match s with
  | EmptyString => []
  | String b0 r0 =>
      let n0 := byte b0 in
      if (n0 <? 128)%N then n0 :: chars r0
      else
        match r0 with
        | String b1 r1 =>
            match continuation b1 with
            | Some c1 =>
                if ((192 <=? n0) && (n0 <? 224))%N
                then ((n0 - 192) * 64 + c1)%N :: chars r1
                else
                  match r1 with
                  | String b2 r2 =>
                      match continuation b2 with
                      | Some c2 =>
                          if ((224 <=? n0) && (n0 <? 240))%N
                          then ((n0 - 224) * 4096 + c1 * 64 + c2)%N :: chars r2
                          else
                            match r2 with
                            | String b3 r3 =>
                                match continuation b3 with
                                | Some c3 =>
                                    if ((240 <=? n0) && (n0 <? 248))%N
                                    then ((n0 - 240) * 262144 + c1 * 4096 + c2 * 64 + c3)%N
                                         :: chars r3
                                    else replacement :: chars r0
                                | None => replacement :: chars r0
                                end
                            | EmptyString => replacement :: chars r0
                            end
                      | None => replacement :: chars r0
                      end
                  | EmptyString => replacement :: chars r0
                  end
            | None => replacement :: chars r0
            end
        | EmptyString => [replacement]
        end
  end.

Definition of_byte (n : N) : ascii := ascii_of_N n.

(** The UTF-8 bytes of one character. *)
Definition encode (c : N) : string :=
  if (c <? 128)%N then String (of_byte c) EmptyString
  else if (c <? 2048)%N then
    String (of_byte (192 + c / 64)) (String (of_byte (128 + c mod 64)) EmptyString)
  else if (c <? 65536)%N then
    String (of_byte (224 + c / 4096))
      (String (of_byte (128 + (c / 64) mod 64))
         (String (of_byte (128 + c mod 64)) EmptyString))
  else
    String (of_byte (240 + c / 262144))
      (String (of_byte (128 + (c / 4096) mod 64))
         (String (of_byte (128 + (c / 64) mod 64))
            (String (of_byte (128 + c mod 64)) EmptyString))).

Fixpoint text_of (l : list N) : string :=
  match l with
  | [] => EmptyString
  | c :: r => encode c +:+ text_of r
  end.

Definition between (lo hi c : N) : bool := ((lo <=? c) && (c <=? hi))%N.

(** [str.isspace] of one character (Unicode 14.0, as in CPython 3.11). *)
Definition isspace (c : N) : bool :=
  between 9 13 c || between 28 32 c || (c =? 133)%N || (c =? 160)%N
  || (c =? 5760)%N || between 8192 8202 c || between 8232 8233 c
  || (c =? 8239)%N || (c =? 8287)%N || (c =? 12288)%N.

(** The characters with a decimal digit value come in runs of ten, zero to
    nine; these are the zeros of the runs (Unicode 14.0). *)
Definition zeros : list N :=
  [ 48; 1632; 1776; 1984; 2406; 2534; 2662; 2790; 2918; 3046; 3174; 3302; 3430;
    3558; 3664; 3792; 3872; 4160; 4240; 6112; 6160; 6470; 6608; 6784; 6800; 6992;
    7088; 7232; 7248; 42528; 43216; 43264; 43472; 43504; 43600; 44016; 65296;
    66720; 68912; 69734; 69872; 69942; 70096; 70384; 70736; 70864; 71248; 71360;
    71472; 71904; 72016; 72784; 73040; 73120; 92768; 92864; 93008; 120782; 120792;
    120802; 120812; 120822; 123200; 123632; 125264; 130032 ]%N.

(** The decimal value of a character, if it is a decimal digit. *)
Definition decimal (c : N) : option Z :=
  match find (fun z => between z (z + 9) c) zeros with
  | Some z => Some (Z.of_N (c - z))
  | None => None
  end.

(** *** Methods of [str] *)

Fixpoint lstrip (l : list N) : list N :=
  match l with
  | c :: r => if isspace c then lstrip r else l
  | [] => []
  end.

Definition rstrip (l : list N) : list N := rev (lstrip (rev l)).

(** [s.strip()] *)
Definition strip (s : string) : string := text_of (rstrip (lstrip (chars s))).

(** [s.startswith(p)] *)
Definition startswith (p s : string) : bool := String.prefix p s.

(** [p in s] *)
Fixpoint contains (p s : string) : bool :=
  String.prefix p s ||
  match s with
  | String _ r => contains p r
  | EmptyString => false
  end.

(** Truth value of a [str] or [None]: [None] and the empty text are false. *)
Definition truthy_text (t : option string) : bool :=
  match t with
  | Some (String _ _) => true
  | _ => false
  end.

(** *** [int] of a [str] *)

(** The white space that [int] drops around the literal: the six
    characters of C's [isspace] and the white space beyond ASCII; the
    separators 0x1c-0x1f, which [strip] removes, are not among them. *)
Definition int_space (c : N) : bool :=
  between 9 13 c || (c =? 32)%N || ((127 <? c)%N && isspace c).

Fixpoint drop_int_space (l : list N) : list N :=
  match l with
  | c :: r => if int_space c then drop_int_space r else l
  | [] => []
  end.

(** The digits of an integer literal as [int] reads them in base ten: a
    digit, then digits each optionally preceded by one underscore.
    [acc] is the value read so far; [after_digit] tells whether the previous
    character was a digit (an underscore is only allowed there, and the
    text must not end on one). *)
Fixpoint digits (acc : Z) (after_digit : bool) (l : list N) : option Z :=
  match l with
  | [] => if after_digit then Some acc else None
  | c :: r =>
      match decimal c with
      | Some d => digits (10 * acc + d) true r
      | None =>
          if ((c =? 95)%N && after_digit)%bool then
            match r with
            | c' :: _ =>
                match decimal c' with
                | Some _ => digits acc false r
                | None => None
                end
            | [] => None
            end
          else None
      end
  end.

(** The number of digit characters of a literal. *)
Fixpoint count_digits (l : list N) : nat :=
  match l with
  | [] => 0%nat
  | c :: r =>
      match decimal c with
      | Some _ => S (count_digits r)
      | None => count_digits r
      end
  end.

(** [sys.get_int_max_str_digits()], by default *)
Definition max_str_digits : nat := 4300.

(** Digits with underscores, refused beyond the limit on the number of
    digits. *)
Definition number (l : list N) : option Z :=
  if (max_str_digits <? count_digits l)%nat then None else digits 0 false l.

(** [int(s)]: white space around the literal is dropped, one sign is
    allowed, at least one digit is required.  [None] stands for the
    [ValueError] that [int] raises. *)
Definition int (s : string) : option Z :=
  match rev (drop_int_space (rev (drop_int_space (chars s)))) with
  | 45%N :: r => Z.opp <$> number r
  | 43%N :: r => number r
  | r => number r
  end.

(** [str(n)] for an [int] *)
Definition str (n : Z) : string := pretty n.

End Py.

(** ** Exceptions *)

(** The classes of exception the handlers tell apart.  All of them derive
    from [Exception]. *)
Inductive exn_class :=
| FloodWait (value : Z)   (* pyrogram.errors.FloodWait, with its [e.value] *)
| ValueError
| TypeError
| KeyError
| OtherException.

(** An exception: its class and the text that [str(e)] gives. *)
Record exn := Exn { cls : exn_class; message_of : string }.

Definition is_FloodWait (e : exn) : bool :=
  match cls e with FloodWait _ => true | _ => false end.

Definition is_ValueError (e : exn) : bool :=
  match cls e with ValueError => true | _ => false end.

Definition is_Exception (e : exn) : bool := true.

(** [e.value] of a [FloodWait] *)
Definition value_of (e : exn) : Z :=
  match cls e with FloodWait v => v | _ => 0 end.

(** ** The world: the users collection, the outside calls and their outcomes *)

Inductive markup :=
| NoMarkup
| InlineKeyboardMarkup (rows : list (list (string * string)))  (* label, callback_data *)
| ForceReply (selective : bool).

Inductive level := INFO | WARNING | ERROR.

Inductive call :=
| FindOne (user_id : Z)                       (* users.find_one({"_id": user_id}) *)
| UpdateOne (user_id channel_id : Z)          (* users.update_one(..., upsert=True) *)
| AdminPing                                   (* client.admin.command("ping") *)
| CopyTo (chat_id : Z)                        (* message.copy(chat_id) *)
| ReplyText (text : string) (reply_markup : markup)   (* message.reply_text(...) *)
| DeleteMessage                               (* message.delete() *)
| Sleep (seconds : Z)                         (* asyncio.sleep(seconds) *)
| Log (lvl : level) (line : string).          (* logger.warning / logger.error *)

(** The outside services whose calls may raise. *)
Inductive service := Store | Liveness | Relay | Send.

Definition service_eqb (a b : service) : bool :=
  match a, b with
  | Store, Store | Liveness, Liveness | Relay, Relay | Send, Send => true
  | _, _ => false
  end.

(** A recorded call: what was called and, when it raised, the exception. *)
Definition event : Type := call * option exn.

(** A document of the users collection: its fields (they are all integers
    here), the key ["_id"] included. *)
Abbreviation document := (gmap string Z).

Record World := {
  users : gmap Z document;                      (* db.users, keyed by [_id] *)
  upcoming : service -> list (option exn);      (* outcomes of the calls to come; none left: success *)
  trace : list event                            (* the calls made so far, oldest first *)
}.

(** ** Computations that may raise *)

Inductive result (A : Type) :=
| Ok (a : A)
| Raised (e : exn).
Arguments Ok {A} a.
Arguments Raised {A} e.

Definition M (A : Type) : Type := World -> result A * World.

#[global] Instance M_ret : MRet M := fun A a w => (Ok a, w).

#[global] Instance M_bind : MBind M := fun A B f c w =>
  match c w with
  | (Ok a, w') => f a w'
  | (Raised e, w') => (Raised e, w')
  end.

Definition raise {A} (e : exn) : M A := fun w => (Raised e, w).

(** One [except] clause: the class test and the handler body. *)
Definition clause (A : Type) : Type := (exn -> bool) * (exn -> M A).

Fixpoint select {A} (clauses : list (clause A)) (e : exn) : option (M A) :=
  match clauses with
  | [] => None
  | (test, body) :: rest => if test e then Some (body e) else select rest e
  end.

(** [try: body  except C1 as e: h1  except C2 as e: h2 ...]: the first
    clause whose class matches handles the exception; what a handler itself
    raises is not offered to the other clauses of the same [try]. *)
Definition try_except {A} (body : M A) (clauses : list (clause A)) : M A := fun w =>
  match body w with
  | (Ok a, w') => (Ok a, w')
  | (Raised e, w') =>
      match select clauses e with
      | Some handler => handler w'
      | None => (Raised e, w')
      end
  end.

Definition record (c : call) (o : option exn) (w : World) : World :=
  {| users := users w; upcoming := upcoming w; trace := trace w ++ [(c, o)] |}.

Definition consume (s : service) (w : World) : World :=
  {| users := users w;
     upcoming := fun s' => if service_eqb s s' then tail (upcoming w s) else upcoming w s';
     trace := trace w |}.

(** The outcome the world holds for the call to [s] that comes after [n]
    further calls to [s]; [None] is success. *)
Definition outcome (s : service) (n : nat) (w : World) : option exn :=
  nth n (upcoming w s) None.

(** A call to an outside service: it is recorded with its outcome and
    raises when the outcome is an exception. *)
Definition outside (s : service) (c : call) : M unit := fun w =>
  match outcome s 0 w with
  | None => (Ok tt, record c None (consume s w))
  | Some e => (Raised e, record c (Some e) (consume s w))
  end.

(** A call that does not raise: sleeping and logging. *)
Definition inside (c : call) : M unit := fun w => (Ok tt, record c None w).

Definition read_users : M (gmap Z document) := fun w => (Ok (users w), w).

Definition with_users (u : gmap Z document) (w : World) : World :=
  {| users := u; upcoming := upcoming w; trace := trace w |}.

Definition write_users (u : gmap Z document) : M unit := fun w => (Ok tt, with_users u w).

(** ** The registry: class [Database] *)

(** The effect of [update_one({"_id": u}, {"$set": {"dump_channel": c}},
    upsert=True)] on the collection: the field is set in the document of
    [u]; a missing document is created with its [_id]. *)
Definition upsert_dump_channel (u c : Z) (coll : gmap Z document) : gmap Z document :=
  match coll !! u with
  | Some d => <[u := <["dump_channel" := c]> d]> coll
  | None => <[u := <["dump_channel" := c]> {["_id" := u]}]> coll
  end.

Definition find_one (user_id : Z) : M (option document) :=
  outside Store (FindOne user_id);;
  coll ← read_users;
  mret (coll !! user_id).

Definition update_one (user_id channel_id : Z) : M unit :=
  outside Store (UpdateOne user_id channel_id);;
  coll ← read_users;
  write_users (upsert_dump_channel user_id channel_id coll).

(** Truth value of what [find_one] returns: [None] and the empty dict are
    false. *)
Definition truthy_doc (user : option document) : bool :=
  match user with
  | Some d => negb (bool_decide (d = ∅))
  | None => false
  end.

(** [user["dump_channel"]] *)
Definition subscript_dump_channel (d : document) : M Z :=
  match d !! "dump_channel" with
  | Some c => mret c
  | None => raise (Exn KeyError "'dump_channel'")
  end.

Definition get_dump_channel (user_id : Z) : M (option Z) :=
  user ← find_one user_id;
  if truthy_doc user then
    match user with
    | Some d => c ← subscript_dump_channel d; mret (Some c)
    | None => mret None
    end
  else mret None.

Definition set_dump_channel (user_id channel_id : Z) : M unit :=
  update_one user_id channel_id.

(** ** Messages, callback queries and the filters of the decorators *)

Inductive media_kind :=
| Document | Video | Audio | Photo | Animation | Sticker
| OtherMedia.   (* voice, contact, location, poll, ... *)

(** The message a message replies to, as far as the handlers look at it. *)
Record Replied := { replied_text : option string }.

Record Message := {
  private : bool;                       (* message.chat.type is PRIVATE or BOT *)
  from_user_id : Z;                     (* message.from_user.id *)
  text : option string;                 (* message.text *)
  caption : option string;              (* message.caption *)
  media : option media_kind;
  reply_to_message_id : option Z;
  reply_to_message : option Replied
}.

Record CallbackQuery := {
  data : string;                        (* callback_query.data *)
  in_message : Message                  (* callback_query.message *)
}.

Definition nl : string := String (ascii_of_nat 10) EmptyString.

Module filters.

Definition lower (c : ascii) : ascii :=
  let n := nat_of_ascii c in
  if ((65 <=? n)%nat && (n <=? 90)%nat)%bool then ascii_of_nat (n + 32) else c.

(** What is left of [s] after the prefix [p], letter case ignored. *)
Fixpoint after_prefix (p s : string) : option string :=
  match p, s with
  | EmptyString, _ => Some s
  | String a p', String b s' =>
      if Ascii.eqb (lower a) (lower b) then after_prefix p' s' else None
  | String _ _, EmptyString => None
  end.

(** The end of a command word: the end of the text or white space. *)
Definition boundary (s : string) : bool :=
  match Py.chars s with
  | [] => true
  | c :: _ => Py.isspace c
  end.

Definition followed_by_boundary (r : option string) : bool :=
  match r with
  | Some s => boundary s
  | None => false
  end.

(** [filters.command(cmd)] with the default prefix: the text (or the
    caption) starts with a slash, then the command, then optionally the
    bot's user name with or without an at sign, then the end of the word.
    [me] is the bot's user name. *)
Definition command (me cmd : string) (m : Message) : bool :=
  let t := if Py.truthy_text (text m) then text m else caption m in
  match t with
  | Some (String "/" without_prefix) =>
      match after_prefix cmd without_prefix with
      | Some r =>
          boundary r
          || followed_by_boundary (after_prefix me r)
          || match r with
             | String "@" r' => followed_by_boundary (after_prefix me r')
             | _ => false
             end
      | None => false
      end
  | _ => false
  end.

Definition private (m : Message) : bool := private m.

Definition text (m : Message) : bool := Py.truthy_text (text m).

Definition has_media (k : media_kind) (m : Message) : bool :=
  match media m, k with
  | Some Document, Document | Some Video, Video | Some Audio, Audio
  | Some Photo, Photo | Some Animation, Animation | Some Sticker, Sticker => true
  | _, _ => false
  end.

Definition document := has_media Document.
Definition video := has_media Video.
Definition audio := has_media Audio.
Definition photo := has_media Photo.
Definition animation := has_media Animation.
Definition sticker := has_media Sticker.

(** [filters.reply]: the truth value of [message.reply_to_message_id]. *)
Definition reply (m : Message) : bool :=
  match reply_to_message_id m with
  | Some i => negb (i =? 0)
  | None => false
  end.

(** [filters.regex("^set_dump$")] on a callback query: the data is the
    word, a final line break allowed. *)
Definition regex_set_dump (q : CallbackQuery) : bool :=
  String.eqb (data q) "set_dump" || String.eqb (data q) ("set_dump" +:+ nl).

End filters.

(** ** The handlers *)

Definition reply_text (t : string) (k : markup) : M unit := outside Send (ReplyText t k).

Definition copy (chat_id : Z) : M unit := outside Relay (CopyTo chat_id).

(** Truth value of a dump channel: [None] and [0] are false. *)
Definition truthy_channel (c : option Z) : bool :=
  match c with
  | Some z => negb (z =? 0)
  | None => false
  end.

Definition not_set_text : string :=
  "❌ You have not set a dump channel." +:+ nl +:+ "Use /settings to configure it.".

Definition failed_text : string := "❌ Failed to dump this message.".

(** [message.text.startswith("/")], reached only when the text is not
    [None]. *)
Definition starts_with_slash (t : option string) : bool :=
  match t with
  | Some s => Py.startswith "/" s
  | None => false
  end.

Definition dump_handler (message : Message) : M unit :=
  if Py.truthy_text (text message) && starts_with_slash (text message)
  then mret tt
  else
    let user_id := from_user_id message in
    dump_channel ← get_dump_channel user_id;
    if negb (truthy_channel dump_channel) then
      if Py.truthy_text (text message) then mret tt
      else reply_text not_set_text NoMarkup
    else
      match dump_channel with
      | Some chat =>
          try_except (copy chat)
            [ (is_FloodWait, fun e =>
                 inside (Log WARNING ("FloodWait " +:+ Py.str (value_of e) +:+ "s for user "
                                      +:+ Py.str user_id));;
                 inside (Sleep (value_of e));;
                 copy chat);
              (is_Exception, fun e =>
                 inside (Log ERROR ("Dump error for user " +:+ Py.str user_id +:+ ": "
                                    +:+ message_of e));;
                 reply_text failed_text NoMarkup) ]
      | None => mret tt
      end.

Definition start_text : string :=
  "👋 **User Dump Bot**" +:+ nl +:+ nl +:+
  "Send me any text or file and I will dump it to *your* channel." +:+ nl +:+
  "Use /settings to configure your dump channel.".

Definition start_cmd (message : Message) : M unit :=
  reply_text start_text NoMarkup.

(** [dump_channel or 'Not Set'], formatted *)
Definition shown_channel (dump_channel : option Z) : string :=
  if truthy_channel dump_channel then
    match dump_channel with Some c => Py.str c | None => "None" end
  else "Not Set".

Definition settings_text (dump_channel : option Z) : string :=
  "**⚙ Your Settings**" +:+ nl +:+ nl +:+
  "📦 Dump Channel ID:" +:+ nl +:+ "`" +:+ shown_channel dump_channel +:+ "`".

Definition settings_keyboard : markup :=
  InlineKeyboardMarkup [[("➕ Set Dump Channel", "set_dump")]].

Definition settings_cmd (message : Message) : M unit :=
  let user_id := from_user_id message in
  dump_channel ← get_dump_channel user_id;
  reply_text (settings_text dump_channel) settings_keyboard.

Definition prompt_text : string :=
  "**Send your Dump Channel ID**" +:+ nl +:+ nl +:+
  "Example:" +:+ nl +:+ "`-1001234567890`" +:+ nl +:+ nl +:+
  "⚠ Bot must be admin in that channel".

Definition set_dump_callback (callback_query : CallbackQuery) : M unit :=
  outside Send DeleteMessage;;
  reply_text prompt_text (ForceReply true).

Definition marker : string := "Dump Channel ID".

Definition saved_text (channel_id : Z) : string :=
  "✅ Dump channel saved for you:" +:+ nl +:+ "`" +:+ Py.str channel_id +:+ "`".

Definition invalid_text : string := "❌ Invalid channel ID. Send numbers only.".

(** [int(message.text.strip())] *)
Definition int_of_text (t : option string) : M Z :=
  match t with
  | None => raise (Exn OtherException "'NoneType' object has no attribute 'strip'")
  | Some s =>
      match Py.int (Py.strip s) with
      | Some z => mret z
      | None => raise (Exn ValueError "invalid literal for int() with base 10")
      end
  end.

Definition save_dump_channel (message : Message) : M unit :=
  match reply_to_message message with
  | None => mret tt
  | Some replied =>
      match replied_text replied with
      | None => raise (Exn TypeError "argument of type 'NoneType' is not iterable")
      | Some prompt =>
          if negb (Py.contains marker prompt) then mret tt
          else
            try_except
              (channel_id ← int_of_text (text message);
               let user_id := from_user_id message in
               set_dump_channel user_id channel_id;;
               reply_text (saved_text channel_id) NoMarkup)
              [ (is_ValueError, fun _ => reply_text invalid_text NoMarkup) ]
      end
  end.

Definition healthy_text : string :=
  "✅ Bot is running!" +:+ nl +:+ "✅ MongoDB connection OK!".

Definition unhealthy_text (e : exn) : string :=
  "❌ Something is wrong!" +:+ nl +:+ message_of e.

Definition ping : M unit := outside Liveness AdminPing.

Definition health_check (message : Message) : M unit :=
  try_except
    (ping;; reply_text healthy_text NoMarkup)
    [ (is_Exception, fun e => reply_text (unhealthy_text e) NoMarkup) ].

(** The request of the HTTP probe; the handler does not look at it. *)
Record Request := { path : string }.

(** [web.Response(text=..., status=...)]; the status defaults to 200. *)
Record Response := { status : Z; body : string }.

Definition http_health (request : Request) : M Response :=
  try_except
    (ping;; mret {| status := 200; body := "OK" |})
    [ (fun _ => true, fun _ => mret {| status := 500; body := "MongoDB connection failed" |}) ].

(** ** Registration and dispatch *)

Inductive Update :=
| NewMessage (m : Message)
| NewCallbackQuery (q : CallbackQuery).

(** A registered handler: the filter of its decorator and its function. *)
Record Handler := {
  name : string;
  accepts : Update -> bool;
  callback : Update -> M unit
}.

Definition on_message (n : string) (f : Message -> bool) (h : Message -> M unit) : Handler :=
  {| name := n;
     accepts := fun u => match u with NewMessage m => f m | NewCallbackQuery _ => false end;
     callback := fun u => match u with NewMessage m => h m | NewCallbackQuery _ => mret tt end |}.

Definition on_callback_query (n : string) (f : CallbackQuery -> bool)
    (h : CallbackQuery -> M unit) : Handler :=
  {| name := n;
     accepts := fun u => match u with NewCallbackQuery q => f q | NewMessage _ => false end;
     callback := fun u => match u with NewCallbackQuery q => h q | NewMessage _ => mret tt end |}.

Section Bot.

(** The user name of the bot account ([client.me.username]). *)
Variable me : string.

Definition dump_filter (m : Message) : bool :=
  filters.private m &&
  (filters.text m || filters.document m || filters.video m || filters.audio m
   || filters.photo m || filters.animation m || filters.sticker m).

Definition start_filter (m : Message) : bool :=
  filters.command me "start" m && filters.private m.

Definition settings_filter (m : Message) : bool :=
  filters.command me "settings" m && filters.private m.

Definition save_filter (m : Message) : bool :=
  filters.private m && filters.reply m && filters.text m.

Definition health_filter (m : Message) : bool :=
  filters.command me "health" m && filters.private m.

(** The handlers in the order in which the decorators of [bot.py] register
    them; no decorator names a group, so all of them are in the default
    group. *)
Definition handlers : list Handler :=
  [ on_message "dump_handler" dump_filter dump_handler;
    on_message "start_cmd" start_filter start_cmd;
    on_message "settings_cmd" settings_filter settings_cmd;
    on_callback_query "set_dump_callback" filters.regex_set_dump set_dump_callback;
    on_message "save_dump_channel" save_filter save_dump_channel;
    on_message "health_check" health_filter health_check ].

(** How the client library (Pyrogram) delivers one update.  It keeps the
    handlers of a group in the order of their registration, tries their
    filters in that order and calls the first handler whose filter accepts
    the update; the handlers that follow in the same group are not tried
    for this update (a handler would have to call
    [message.continue_propagation()] for that, or be registered in another
    group; [bot.py] does neither).  An exception that the called handler
    lets escape is logged by the dispatcher and goes no further.  The
    result names the handler that was called. *)
Definition dispatch (u : Update) (w : World) : option string * World :=
  match find (fun h => accepts h u) handlers with
  | None => (None, w)
  | Some h =>
      match callback h u w with
      | (Ok _, w') => (Some (name h), w')
      | (Raised e, w') => (Some (name h), record (Log ERROR (message_of e)) None w')
      end
  end.

End Bot.

(** ** Reading a trace *)

(** The texts of the replies that were sent (the calls to [reply_text]
    that returned). *)
Fixpoint replies (t : list event) : list string :=
  match t with
  | (ReplyText s _, None) :: r => s :: replies r
  | _ :: r => replies r
  | [] => []
  end.

(** The copy attempts, successful or not, with their destination. *)
Fixpoint copies (t : list event) : list Z :=
  match t with
  | (CopyTo c, _) :: r => c :: copies r
  | _ :: r => copies r
  | [] => []
  end.

(** The waits. *)
Fixpoint sleeps (t : list event) : list Z :=
  match t with
  | (Sleep s, _) :: r => s :: sleeps r
  | _ :: r => sleeps r
  | [] => []
  end.

(** The log lines written by the handlers. *)
Fixpoint logged (t : list event) : list string :=
  match t with
  | (Log _ s, _) :: r => s :: logged r
  | _ :: r => logged r
  | [] => []
  end.

(** No call to [s] is going to raise. *)
Definition quiet (s : service) (w : World) : Prop := upcoming w s = [].

(** ** What the properties speak of *)

(** The user has a document, and its dump channel is [c]. *)
Definition bound (user_id c : Z) (w : World) : Prop :=
  exists d, users w !! user_id = Some d /\ d !! "dump_channel" = Some c.

(** The user has a document whose dump channel is 0. *)
Definition zero_bound (user_id : Z) (w : World) : Prop := bound user_id 0 w.

(** The message replies to a message with the text [prompt], and [prompt]
    carries the marker. *)
Definition answers_prompt (m : Message) (prompt : string) : Prop :=
  reply_to_message m = Some {| replied_text := Some prompt |}
  /\ Py.contains marker prompt = true.

(** A message that [dump_handler] does not skip as a command. *)
Definition content (m : Message) : Prop :=
  Py.truthy_text (text m) && starts_with_slash (text m) = false.

(** Every document carries its own [_id] and a dump channel: the shape of
    the documents that [set_dump_channel] writes. *)
Definition well_formed (coll : gmap Z document) : Prop :=
  forall u d, coll !! u = Some d ->
    d !! "_id" = Some u /\ exists c, d !! "dump_channel" = Some c.

(** The code of one of the ten ASCII digits. *)
Definition digit_code (c : N) : Prop := exists d, (d < 10)%N /\ c = (48 + d)%N.

(** [stable obs c]: running [c] does not change the observation [obs] of
    the world, whatever the outside answers and whether [c] returns or
    raises. *)
Definition stable {X A} (obs : World -> X) (c : M A) : Prop :=
  forall w, obs (snd (c w)) = obs w.

(** The copy attempts made so far. *)
Definition relayed (w : World) : list Z := copies (trace w).

(** A call whose record does not show in the observation [obs]. *)
Definition unseen {X} (obs : World -> X) (c : call) : Prop :=
  forall o w, obs (record c o w) = obs w.


(** ** Sample inputs *)

(** A world with the given collection in which every outside call
    succeeds. *)
Definition fresh (coll : gmap Z document) : World :=
  {| users := coll; upcoming := fun _ => []; trace := [] |}.

Definition text_message (u : Z) (t : string) : Message :=
  {| private := true; from_user_id := u; text := Some t; caption := None; media := None;
     reply_to_message_id := None; reply_to_message := None |}.

Definition media_message (u : Z) (k : media_kind) : Message :=
  {| private := true; from_user_id := u; text := None; caption := None; media := Some k;
     reply_to_message_id := None; reply_to_message := None |}.

Definition reply_message (u : Z) (t : string) (prompt : string) : Message :=
  {| private := true; from_user_id := u; text := Some t; caption := None; media := None;
     reply_to_message_id := Some 77;
     reply_to_message := Some {| replied_text := Some prompt |} |}.



(** A world in which the ping raises. *)
Definition store_down (msg : string) : World :=
  {| users := ∅;
     upcoming := fun s => match s with Liveness => [Some (Exn OtherException msg)] | _ => [] end;
     trace := [] |}.

(** A user bound to a channel; the first copy attempt meets a rate limit
    of 45 seconds and the retry is refused. *)
Definition flood_then_refusal : World :=
  {| users := upsert_dump_channel 5 (-1001234567890) ∅;
     upcoming := fun s =>
       match s with
       | Relay => [Some (Exn (FloodWait 45) "FLOOD_WAIT_45");
                   Some (Exn OtherException "CHAT_WRITE_FORBIDDEN")]
       | _ => []
       end;
     trace := [] |}.

(** The first copy attempt meets a rate limit of 45 seconds, the retry goes
    through. *)
Definition flood_then_success : World :=
  {| users := upsert_dump_channel 5 (-1001) ∅;
     upcoming := fun s =>
       match s with
       | Relay => [Some (Exn (FloodWait 45) "FLOOD_WAIT_45")]
       | _ => []
       end;
     trace := [] |}.

(** Telegram refuses the next send. *)
Definition send_refused : World :=
  {| users := ∅;
     upcoming := fun s =>
       match s with
       | Send => [Some (Exn OtherException "USER_IS_BLOCKED")]
       | _ => []
       end;
     trace := [] |}.

(** * Properties *)

(** ** Python strings *)

Example int_channel : Py.int "-1001234567890" = Some (-1001234567890).
Proof. reflexivity. Qed.

Example int_letters : Py.int "abc" = None.
Proof. reflexivity. Qed.

Example int_zero : Py.int "0" = Some 0.
Proof. reflexivity. Qed.

Example int_padded : Py.int (Py.strip "  +1_000 ") = Some 1000.
Proof. reflexivity. Qed.

Example int_bad_underscore : Py.int "1__0" = None /\ Py.int "_1" = None /\ Py.int "1_" = None.
Proof. repeat split; reflexivity. Qed.

Example int_lone_sign : Py.int "-" = None /\ Py.int EmptyString = None /\ Py.int "- 1" = None.
Proof. repeat split; reflexivity. Qed.

Example str_channel : Py.str (-1001234567890) = "-1001234567890".
Proof. reflexivity. Qed.

(** Digits and white space beyond ASCII: full-width and Arabic-Indic
    digits, a no-break space, an ideographic space. *)
Example int_other_digits :
  Py.int "１２３" = Some 123 /\ Py.int "-٣٤" = Some (-34)
  /\ Py.int (Py.strip " １２３　") = Some 123 /\ Py.strip " １２３　" = "１２３".
Proof. repeat split; reflexivity. Qed.

(** The separators 0x1c-0x1f are white space for [strip], not for [int]. *)
Example int_separators :
  Py.int (String (ascii_of_nat 28) "5") = None
  /\ Py.strip (String (ascii_of_nat 28) "5") = "5"
  /\ Py.int (Py.strip (String (ascii_of_nat 28) "5")) = Some 5.
Proof. repeat split; reflexivity. Qed.

(** A zero-width space is no white space. *)
Example int_zero_width_space : Py.strip "​5" = "​5" /\ Py.int "​5" = None.
Proof. split; reflexivity. Qed.

(** ** Worlds and outside calls *)

Lemma outcome_record s n c o w : outcome s n (record c o w) = outcome s n w.
Proof. reflexivity. Qed.

Lemma outcome_consume s s' n w :
  outcome s' n (consume s w) = outcome s' (if service_eqb s s' then S n else n) w.
Proof.
  unfold outcome, consume.
  destruct s, s'; simpl; try reflexivity;
    match goal with |- context [tail ?l] => destruct l end;
    try reflexivity; destruct n; reflexivity.
Qed.

Lemma outcome_with_users s n u w : outcome s n (with_users u w) = outcome s n w.
Proof. reflexivity. Qed.

Lemma users_with_users u w : users (with_users u w) = u.
Proof. reflexivity. Qed.

Lemma trace_with_users u w : trace (with_users u w) = trace w.
Proof. reflexivity. Qed.

Lemma quiet_outcome s n w : quiet s w -> outcome s n w = None.
Proof. unfold quiet, outcome. intros ->. destruct n; reflexivity. Qed.

Lemma users_record c o w : users (record c o w) = users w.
Proof. reflexivity. Qed.

Lemma users_consume s w : users (consume s w) = users w.
Proof. reflexivity. Qed.

Lemma trace_record c o w : trace (record c o w) = trace w ++ [(c, o)].
Proof. reflexivity. Qed.

Lemma trace_consume s w : trace (consume s w) = trace w.
Proof. reflexivity. Qed.

Lemma outside_ok s c w :
  outcome s 0 w = None -> outside s c w = (Ok tt, record c None (consume s w)).
Proof. unfold outside. intros ->. reflexivity. Qed.

Lemma outside_raises s c w e :
  outcome s 0 w = Some e -> outside s c w = (Raised e, record c (Some e) (consume s w)).
Proof. unfold outside. intros ->. reflexivity. Qed.

Lemma replies_app t1 t2 : replies (t1 ++ t2) = replies t1 ++ replies t2.
Proof.
  induction t1 as [|[c o] t1 IH]; simpl; [reflexivity|].
  destruct c; try assumption. destruct o; [assumption|]. simpl. now rewrite IH.
Qed.

Lemma copies_app t1 t2 : copies (t1 ++ t2) = copies t1 ++ copies t2.
Proof.
  induction t1 as [|[c o] t1 IH]; simpl; [reflexivity|].
  destruct c; try assumption. simpl. now rewrite IH.
Qed.

Lemma sleeps_app t1 t2 : sleeps (t1 ++ t2) = sleeps t1 ++ sleeps t2.
Proof.
  induction t1 as [|[c o] t1 IH]; simpl; [reflexivity|].
  destruct c; try assumption. simpl. now rewrite IH.
Qed.

Lemma logged_app t1 t2 : logged (t1 ++ t2) = logged t1 ++ logged t2.
Proof.
  induction t1 as [|[c o] t1 IH]; simpl; [reflexivity|].
  destruct c; try assumption. simpl. now rewrite IH.
Qed.

Create Rewrite HintDb world.

#[global] Hint Rewrite outcome_record outcome_consume outcome_with_users
  users_with_users trace_with_users
  users_record users_consume trace_record trace_consume
  replies_app copies_app sleeps_app logged_app app_nil_r : world.
#[global] Hint Rewrite <- app_assoc : world.

#[global] Arguments outside : simpl never.
#[global] Arguments record : simpl never.
#[global] Arguments consume : simpl never.
#[global] Arguments with_users : simpl never.
#[global] Arguments saved_text : simpl never.
#[global] Arguments unhealthy_text : simpl never.
#[global] Arguments settings_text : simpl never.
#[global] Arguments Py.str : simpl never.
#[global] Arguments outcome : simpl never.

(** Unfolding of the sequencing of computations. *)
Ltac seq := unfold mbind, M_bind, mret, M_ret, try_except, raise, inside,
  read_users, write_users; cbn beta iota.

(** One outside call whose outcome is known from the hypotheses. *)
Ltac answer :=
  match goal with
  | |- context [outside ?s ?c ?w] =>
      first
        [ rewrite (outside_ok s c w)
            by (autorewrite with world; simpl; first [assumption | apply quiet_outcome; assumption])
        | erewrite (outside_raises s c w)
            by (autorewrite with world; simpl; eassumption) ]
  end; cbn beta iota.

Ltac run := seq; repeat (progress (simpl; repeat answer)); autorewrite with world; simpl.

(** ** The registry *)

Section Registry.

Implicit Types (u v c : Z) (coll : gmap Z document).

Lemma upsert_lookup u c coll :
  exists d, upsert_dump_channel u c coll !! u = Some d
            /\ d !! "dump_channel" = Some c /\ d <> ∅.
Proof.
  unfold upsert_dump_channel.
  destruct (coll !! u) as [d|] eqn:E; rewrite lookup_insert_eq; eexists; split; try reflexivity;
    (split; [apply lookup_insert_eq | apply insert_non_empty]).
Qed.

Lemma upsert_lookup_ne u v c coll :
  u <> v -> upsert_dump_channel u c coll !! v = coll !! v.
Proof.
  intros Hne. unfold upsert_dump_channel.
  destruct (coll !! u); now rewrite lookup_insert_ne.
Qed.

(** A second write replaces the value of the first, in the same document. *)
Lemma upsert_overwrites u c c' coll :
  upsert_dump_channel u c' (upsert_dump_channel u c coll) = upsert_dump_channel u c' coll.
Proof.
  unfold upsert_dump_channel at 1.
  destruct (upsert_lookup u c coll) as (d & Hd & _ & _). rewrite Hd.
  unfold upsert_dump_channel in *.
  destruct (coll !! u) as [d0|]; rewrite lookup_insert_eq in Hd; injection Hd as <-;
    now rewrite !insert_insert_eq.
Qed.

(** The number of documents grows by at most the one of [u]. *)
Lemma upsert_dom u c coll : dom (upsert_dump_channel u c coll) = {[u]} ∪ dom coll.
Proof.
  unfold upsert_dump_channel. destruct (coll !! u); now rewrite dom_insert_L.
Qed.

Lemma get_reads u w d c :
  outcome Store 0 w = None ->
  users w !! u = Some d -> d !! "dump_channel" = Some c -> d <> ∅ ->
  get_dump_channel u w = (Ok (Some c), record (FindOne u) None (consume Store w)).
Proof.
  intros Hs Hu Hd Hne. unfold get_dump_channel, find_one. run.
  rewrite Hu. simpl. rewrite bool_decide_eq_false_2 by assumption. simpl.
  unfold subscript_dump_channel. rewrite Hd. reflexivity.
Qed.

Lemma get_absent u w :
  outcome Store 0 w = None ->
  users w !! u = None ->
  get_dump_channel u w = (Ok None, record (FindOne u) None (consume Store w)).
Proof.
  intros Hs Hu. unfold get_dump_channel, find_one. run. rewrite Hu. reflexivity.
Qed.

Lemma get_unreachable u w e :
  outcome Store 0 w = Some e ->
  get_dump_channel u w = (Raised e, record (FindOne u) (Some e) (consume Store w)).
Proof. intros Hs. unfold get_dump_channel, find_one. run. reflexivity. Qed.

Lemma set_writes u c w :
  outcome Store 0 w = None ->
  set_dump_channel u c w =
    (Ok tt, with_users (upsert_dump_channel u c (users w))
              (record (UpdateOne u c) None (consume Store w))).
Proof. intros Hs. unfold set_dump_channel, update_one. run. reflexivity. Qed.

Lemma set_unreachable u c w e :
  outcome Store 0 w = Some e ->
  set_dump_channel u c w = (Raised e, record (UpdateOne u c) (Some e) (consume Store w)).
Proof. intros Hs. unfold set_dump_channel, update_one. run. reflexivity. Qed.

End Registry.

Lemma get_bound u c w :
  bound u c w -> outcome Store 0 w = None ->
  get_dump_channel u w = (Ok (Some c), record (FindOne u) None (consume Store w)).
Proof.
  intros (d & Hu & Hd) Hs. apply (get_reads u w d c Hs Hu Hd).
  intros ->. rewrite lookup_empty in Hd. discriminate.
Qed.

(** C5.  For a user id that has no document in the registry, [get] returns
    [None]; it does not raise (the store answering the lookup), and the
    collection is left as it was. *)
Theorem get_never_seen_user_is_None (user_id : Z) (w : World) :
  users w !! user_id = None ->
  outcome Store 0 w = None ->
  exists w', get_dump_channel user_id w = (Ok None, w') /\ users w' = users w.
Proof.
  intros Hu Hs. rewrite (get_absent _ _ Hs Hu). eexists; split; reflexivity.
Qed.

Lemma get_never_seen_user_is_None_witness :
  exists w', get_dump_channel 42 (fresh ∅) = (Ok None, w') /\ users w' = users (fresh ∅).
Proof. apply (get_never_seen_user_is_None 42 (fresh ∅)); reflexivity. Defined.

(** C4.  [set(u, A)] followed by [get(u)] returns [A]; [set(u, A)],
    [set(u, B)], [get(u)] returns [B]; the second write overwrites the
    binding in place: the collection is the one a single [set(u, B)] gives,
    with one document for [u], and the documents of other users are not
    touched. *)
Theorem set_get_last_write_wins (u A B : Z) (w : World) :
  quiet Store w ->
  fst ((set_dump_channel u A;; get_dump_channel u) w) = Ok (Some A)
  /\ fst ((set_dump_channel u A;; set_dump_channel u B;; get_dump_channel u) w) = Ok (Some B)
  /\ users (snd ((set_dump_channel u A;; set_dump_channel u B) w))
     = users (snd (set_dump_channel u B w))
  /\ dom (users (snd ((set_dump_channel u A;; set_dump_channel u B) w))) = {[u]} ∪ dom (users w)
  /\ forall v, v <> u ->
       users (snd ((set_dump_channel u A;; set_dump_channel u B) w)) !! v = users w !! v.
Proof.
  intros Hq.
  assert (Hs : forall n, outcome Store n w = None) by (intros n; now apply quiet_outcome).
  unfold mbind, M_bind.
  rewrite !(set_writes _ _ w (Hs _)).
  rewrite !(set_writes u B) by (autorewrite with world; apply Hs).
  cbn [fst snd]. autorewrite with world.
  destruct (upsert_lookup u A (users w)) as (dA & HA & HAc & HAne).
  destruct (upsert_lookup u B (upsert_dump_channel u A (users w))) as (dB & HB & HBc & HBne).
  repeat split.
  - erewrite get_reads; [reflexivity | | exact HA | exact HAc | exact HAne].
    autorewrite with world; apply Hs.
  - erewrite get_reads; [reflexivity | | exact HB | exact HBc | exact HBne].
    autorewrite with world; apply Hs.
  - apply upsert_overwrites.
  - rewrite !upsert_dom. now rewrite (assoc_L (∪)), (idemp_L (∪)).
  - intros v Hv. rewrite !upsert_lookup_ne by congruence. reflexivity.
Qed.

Lemma set_get_last_write_wins_witness :
  fst ((set_dump_channel 5 (-1001);; get_dump_channel 5) (fresh ∅)) = Ok (Some (-1001))
  /\ fst ((set_dump_channel 5 (-1001);; set_dump_channel 5 (-1002);; get_dump_channel 5) (fresh ∅))
     = Ok (Some (-1002)).
Proof.
  destruct (set_get_last_write_wins 5 (-1001) (-1002) (fresh ∅)) as (H1 & H2 & _);
    [reflexivity | split; assumption].
Defined.

(** ** What a computation leaves as it was *)

Section Stable.

Context {X : Type} (obs : World -> X).

Lemma stable_ret {A} (a : A) : stable obs (mret a).
Proof. intros w. reflexivity. Qed.

Lemma stable_raise {A} (e : exn) : stable obs (raise e : M A).
Proof. intros w. reflexivity. Qed.

Lemma stable_read_users : stable obs read_users.
Proof. intros w. reflexivity. Qed.

Lemma stable_bind {A B} (c : M A) (k : A -> M B) :
  stable obs c -> (forall a, stable obs (k a)) -> stable obs (c ≫= k).
Proof.
  intros Hc Hk w. unfold mbind, M_bind.
  specialize (Hc w). destruct (c w) as [[a|e] w']; simpl in *.
  - now rewrite Hk.
  - exact Hc.
Qed.

Lemma select_stable {A} (clauses : list (clause A)) e h :
  Forall (fun cl => forall e, stable obs (snd cl e)) clauses ->
  select clauses e = Some h -> stable obs h.
Proof.
  induction 1 as [|[test body] rest Hb _ IH]; simpl; [discriminate|].
  destruct (test e); [|exact IH]. intros [= <-]. apply Hb.
Qed.

Lemma stable_try {A} (body : M A) (clauses : list (clause A)) :
  stable obs body ->
  Forall (fun cl => forall e, stable obs (snd cl e)) clauses ->
  stable obs (try_except body clauses).
Proof.
  intros Hb Hc w. unfold try_except.
  specialize (Hb w). destruct (body w) as [[a|e] w']; simpl in *; [exact Hb|].
  destruct (select clauses e) as [h|] eqn:E; simpl; [|exact Hb].
  now rewrite (select_stable _ _ _ Hc E).
Qed.

Hypothesis obs_consume : forall s w, obs (consume s w) = obs w.

Lemma stable_outside s c : unseen obs c -> stable obs (outside s c).
Proof.
  intros Hc w. unfold outside.
  destruct (outcome s 0 w); simpl; now rewrite Hc, obs_consume.
Qed.

Lemma stable_inside c : unseen obs c -> stable obs (inside c).
Proof. intros Hc w. apply Hc. Qed.

End Stable.

Lemma relayed_consume s w : relayed (consume s w) = relayed w.
Proof. reflexivity. Qed.

(** Every call but a copy leaves the copy attempts as they were. *)
Lemma unseen_relayed c : (forall d, c <> CopyTo d) -> unseen relayed c.
Proof.
  intros Hc o w. unfold relayed. rewrite trace_record, copies_app.
  destruct c; simpl; try apply app_nil_r. now destruct (Hc chat_id).
Qed.

(** No call record changes the collection. *)
Lemma unseen_users c : unseen users c.
Proof. intros o w. reflexivity. Qed.

Ltac no_copy :=
  repeat first
    [ apply stable_ret | apply stable_raise | apply stable_read_users
    | apply stable_bind; [|intros ?]
    | apply stable_try; [|repeat constructor; intros ?; simpl]
    | apply (stable_outside relayed relayed_consume), unseen_relayed; discriminate
    | apply (stable_inside relayed), unseen_relayed; discriminate
    | intros ?; reflexivity ].

Ltac no_write :=
  repeat first
    [ apply stable_ret | apply stable_raise | apply stable_read_users
    | apply stable_bind; [|intros ?]
    | apply stable_try; [|repeat constructor; intros ?; simpl]
    | apply (stable_outside users users_consume), unseen_users
    | apply (stable_inside users), unseen_users ].

Lemma get_no_copy u : stable relayed (get_dump_channel u).
Proof.
  unfold get_dump_channel, find_one. no_copy.
  destruct (truthy_doc a); [destruct a as [d|]|]; unfold subscript_dump_channel; no_copy.
  destruct (d !! "dump_channel"); no_copy.
Qed.

Lemma get_no_write u : stable users (get_dump_channel u).
Proof.
  unfold get_dump_channel, find_one. no_write.
  destruct (truthy_doc a); [destruct a as [d|]|]; unfold subscript_dump_channel; no_write.
  destruct (d !! "dump_channel"); no_write.
Qed.

Lemma set_no_copy u c : stable relayed (set_dump_channel u c).
Proof. unfold set_dump_channel, update_one. no_copy. Qed.

Lemma start_no_copy m : stable relayed (start_cmd m).
Proof. unfold start_cmd, reply_text. no_copy. Qed.

Lemma settings_no_copy m : stable relayed (settings_cmd m).
Proof.
  unfold settings_cmd, reply_text. apply stable_bind; [apply get_no_copy|intros ?]. no_copy.
Qed.

Lemma callback_no_copy q : stable relayed (set_dump_callback q).
Proof. unfold set_dump_callback, reply_text. no_copy. Qed.

Lemma save_no_copy m : stable relayed (save_dump_channel m).
Proof.
  unfold save_dump_channel, reply_text.
  destruct (reply_to_message m) as [r|]; [|no_copy].
  destruct (replied_text r) as [p|]; [|no_copy].
  destruct (negb (Py.contains marker p)); [no_copy|].
  apply stable_try; [|repeat constructor; intros ?; simpl; no_copy].
  apply stable_bind.
  - unfold int_of_text. destruct (text m) as [s|]; [destruct (Py.int (Py.strip s))|]; no_copy.
  - intros z. apply stable_bind; [apply set_no_copy|intros ?]. no_copy.
Qed.

Lemma health_no_copy m : stable relayed (health_check m).
Proof. unfold health_check, ping, reply_text. no_copy. Qed.

(** The handlers that never write to the registry, on every input and
    whatever the outside answers. *)
Lemma start_no_write m : stable users (start_cmd m).
Proof. unfold start_cmd, reply_text. no_write. Qed.

Lemma settings_no_write m : stable users (settings_cmd m).
Proof.
  unfold settings_cmd, reply_text. apply stable_bind; [apply get_no_write|intros ?]. no_write.
Qed.

Lemma health_no_write m : stable users (health_check m).
Proof. unfold health_check, ping, reply_text. no_write. Qed.

Lemma http_health_no_write rq : stable users (http_health rq).
Proof. unfold http_health, ping. no_write. Qed.

Lemma callback_no_write q : stable users (set_dump_callback q).
Proof. unfold set_dump_callback, reply_text. no_write. Qed.

Lemma dump_no_write m : stable users (dump_handler m).
Proof.
  unfold dump_handler, reply_text, copy.
  destruct (_ && _); [no_write|].
  apply stable_bind; [apply get_no_write|intros c].
  destruct (negb (truthy_channel c)).
  - destruct (Py.truthy_text (text m)); no_write.
  - destruct c; no_write.
Qed.

(** A message whose text starts with a slash: [dump_handler] returns at
    once, the world untouched. *)
Lemma dump_handler_skips_commands m t w :
  text m = Some t -> Py.startswith "/" t = true -> dump_handler m w = (Ok tt, w).
Proof.
  intros Ht Hs. unfold dump_handler, starts_with_slash. rewrite Ht, Hs.
  destruct t; [discriminate Hs|]. reflexivity.
Qed.

(** ** Dispatch of commands and the relay path *)

Lemma handlers_never_relay_commands me m t :
  text m = Some t -> Py.startswith "/" t = true ->
  forall h, In h (handlers me) -> stable relayed (callback h (NewMessage m)).
Proof.
  intros Ht Hs h Hin w. unfold handlers in Hin. simpl in Hin.
  destruct Hin as [<-|[<-|[<-|[<-|[<-|[<-|[]]]]]]]; simpl.
  - now rewrite (dump_handler_skips_commands m t w Ht Hs).
  - apply start_no_copy.
  - apply settings_no_copy.
  - reflexivity.
  - apply save_no_copy.
  - apply health_no_copy.
Qed.

(** C6.  A message whose text begins with the command prefix is never
    relayed: no registered handler attempts a copy for it, whatever the
    binding of the user, the other content of the message and the answers
    of the outside. *)
Theorem command_text_is_never_relayed (me : string) (m : Message) (t : string) (w : World) :
  text m = Some t -> Py.startswith "/" t = true ->
  forall h, In h (handlers me) -> relayed (snd (callback h (NewMessage m) w)) = relayed w.
Proof.
  intros Ht Hs h Hin. apply (handlers_never_relay_commands me m t Ht Hs h Hin).
Qed.

Lemma command_text_is_never_relayed_witness :
  relayed (snd (callback (on_message "dump_handler" dump_filter dump_handler)
                  (NewMessage (text_message 5 "/start"))
                  (fresh (upsert_dump_channel 5 (-1001) ∅)))) = [].
Proof.
  apply (command_text_is_never_relayed "DumpBot" (text_message 5 "/start") "/start"
           (fresh (upsert_dump_channel 5 (-1001) ∅)) eq_refl eq_refl).
  simpl; tauto.
Defined.

(** The same through the dispatcher. *)
Lemma dispatch_never_relays_commands me m t w :
  text m = Some t -> Py.startswith "/" t = true ->
  relayed (snd (dispatch me (NewMessage m) w)) = relayed w.
Proof.
  intros Ht Hs.
  pose proof (handlers_never_relay_commands me m t Ht Hs) as Hall.
  unfold dispatch.
  destruct (find _ (handlers me)) as [h|] eqn:E; [|reflexivity].
  apply find_some in E as [Hin _].
  specialize (Hall h Hin w).
  destruct (callback h (NewMessage m) w) as [[[]|e] w']; simpl in *; [exact Hall|].
  unfold relayed in *. now autorewrite with world.
Qed.

(** ** Users without a destination *)

Lemma dump_handler_unset_media m w :
  Py.truthy_text (text m) = false ->
  users w !! from_user_id m = None ->
  outcome Store 0 w = None ->
  outcome Send 0 w = None ->
  dump_handler m w =
    (Ok tt, record (ReplyText not_set_text NoMarkup) None
              (consume Send (record (FindOne (from_user_id m)) None (consume Store w)))).
Proof.
  intros Ht Hu Hs Hr. unfold dump_handler. rewrite Ht. simpl. seq.
  rewrite (get_absent _ _ Hs Hu). simpl. unfold reply_text. run. reflexivity.
Qed.

(** Without a binding no reply is sent for a text message, whatever the
    outside answers. *)
Lemma dump_handler_unset_text_silent m w :
  Py.truthy_text (text m) = true ->
  users w !! from_user_id m = None ->
  replies (trace (snd (dump_handler m w))) = replies (trace w).
Proof.
  intros Ht Hu. unfold dump_handler. rewrite Ht.
  destruct (_ && _); [reflexivity|]. seq.
  destruct (outcome Store 0 w) as [e|] eqn:Hs.
  - rewrite (get_unreachable _ _ _ Hs). simpl. now autorewrite with world.
  - rewrite (get_absent _ _ Hs Hu). simpl. now autorewrite with world.
Qed.

(** C3.  For a user without a binding, [dump_handler] sends no reply for a
    text message (a plain one included), and for a message without text (a
    document, video, audio, photo, animation or sticker) it sends exactly
    one reply, the prompt to configure the channel with /settings; the two
    kinds of content are told apart. *)
Theorem unset_destination_text_silent_media_prompted (m : Message) (w : World) :
  dump_filter m = true ->
  users w !! from_user_id m = None ->
  (filters.text m = true ->
     replies (trace (snd (dump_handler m w))) = replies (trace w)
     /\ (outcome Store 0 w = None -> fst (dump_handler m w) = Ok tt))
  /\ (filters.text m = false ->
        outcome Store 0 w = None -> outcome Send 0 w = None ->
        (exists k, media m = Some k /\ k <> OtherMedia)
        /\ fst (dump_handler m w) = Ok tt
        /\ replies (trace (snd (dump_handler m w))) = replies (trace w) ++ [not_set_text]
        /\ Py.contains "/settings" not_set_text = true).
Proof.
  intros Hf Hu. unfold filters.text. split.
  - intros Ht. split; [now apply dump_handler_unset_text_silent|].
    intros Hs. unfold dump_handler. rewrite Ht.
    destruct (_ && _); [reflexivity|]. seq. now rewrite (get_absent _ _ Hs Hu).
  - intros Ht Hs Hr. rewrite (dump_handler_unset_media m w Ht Hu Hs Hr). simpl.
    autorewrite with world. simpl. autorewrite with world. repeat split; try reflexivity.
    unfold dump_filter, filters.text in Hf. rewrite Ht in Hf.
    unfold filters.document, filters.video, filters.audio, filters.photo,
      filters.animation, filters.sticker, filters.has_media in Hf.
    destruct (media m) as [[]|]; simpl in Hf; rewrite ?andb_false_r in Hf;
      try discriminate Hf; eexists; split; try reflexivity; discriminate.
Qed.

Lemma unset_destination_text_silent_media_prompted_witness :
  replies (trace (snd (dump_handler (text_message 5 "hello") (fresh ∅)))) = []
  /\ replies (trace (snd (dump_handler (media_message 5 Photo) (fresh ∅)))) = [not_set_text].
Proof.
  split.
  - apply (unset_destination_text_silent_media_prompted (text_message 5 "hello") (fresh ∅));
      reflexivity.
  - apply (unset_destination_text_silent_media_prompted (media_message 5 Photo) (fresh ∅));
      reflexivity.
Defined.

(** ** Configuration submissions *)

(** Both prompts the bot sends carry the marker: the one of the button and
    the settings view. *)
Example marker_in_prompts :
  Py.contains marker prompt_text = true /\ Py.contains marker (settings_text None) = true.
Proof. split; reflexivity. Qed.

Lemma save_accepts m prompt body z w :
  answers_prompt m prompt -> text m = Some body ->
  Py.int (Py.strip body) = Some z ->
  outcome Store 0 w = None -> outcome Send 0 w = None ->
  save_dump_channel m w =
    (Ok tt, record (ReplyText (saved_text z) NoMarkup) None
              (consume Send
                 (with_users (upsert_dump_channel (from_user_id m) z (users w))
                    (record (UpdateOne (from_user_id m) z) None (consume Store w))))).
Proof.
  intros [Hr Hp] Ht Hz Hs Hd. unfold save_dump_channel, int_of_text, reply_text.
  rewrite Hr. simpl. rewrite Hp, Ht, Hz. simpl. seq.
  rewrite (set_writes _ _ _ Hs). run. reflexivity.
Qed.

Lemma save_rejects m prompt body w :
  answers_prompt m prompt -> text m = Some body ->
  Py.int (Py.strip body) = None ->
  outcome Send 0 w = None ->
  save_dump_channel m w = (Ok tt, record (ReplyText invalid_text NoMarkup) None (consume Send w)).
Proof.
  intros [Hr Hp] Ht Hz Hd. unfold save_dump_channel, int_of_text, reply_text.
  rewrite Hr. simpl. rewrite Hp, Ht, Hz. simpl. run. reflexivity.
Qed.

(** What [save_dump_channel] does when it is called on a text message that
    replies to a prompt carrying the marker: when the body reads as an
    integer, [get] of the sender afterwards returns that integer and the
    one reply sent is the confirmation; when it does not, the collection is
    unchanged and the one reply sent is the invalid-input error.  (The
    store and Telegram answering the calls made.) *)
Lemma save_dump_channel_when_called (m : Message) (prompt body : string) (w : World) :
  answers_prompt m prompt -> text m = Some body ->
  quiet Store w -> outcome Send 0 w = None ->
  exists w', save_dump_channel m w = (Ok tt, w') /\
    match Py.int (Py.strip body) with
    | Some z =>
        fst (get_dump_channel (from_user_id m) w') = Ok (Some z)
        /\ replies (trace w') = replies (trace w) ++ [saved_text z]
    | None =>
        users w' = users w
        /\ replies (trace w') = replies (trace w) ++ [invalid_text]
    end.
Proof.
  intros Hp Ht Hq Hd.
  assert (Hs : forall n, outcome Store n w = None) by (intros n; now apply quiet_outcome).
  destruct (Py.int (Py.strip body)) as [z|] eqn:Hz.
  - rewrite (save_accepts m prompt body z w Hp Ht Hz (Hs _) Hd).
    eexists; split; [reflexivity|]. split.
    + destruct (upsert_lookup (from_user_id m) z (users w)) as (d & Hd1 & Hd2 & Hd3).
      erewrite get_reads; [reflexivity | | | exact Hd2 | exact Hd3].
      * autorewrite with world. apply Hs.
      * autorewrite with world. exact Hd1.
    + autorewrite with world. simpl. now autorewrite with world.
  - rewrite (save_rejects m prompt body w Hp Ht Hz Hd).
    eexists; split; [reflexivity|]. split; [reflexivity|].
    autorewrite with world. simpl. now autorewrite with world.
Qed.

(** ** The channel id 0 *)

Lemma get_zero u w :
  zero_bound u w -> outcome Store 0 w = None ->
  get_dump_channel u w = (Ok (Some 0), record (FindOne u) None (consume Store w)).
Proof. apply get_bound. Qed.

(** With the dump channel 0 [dump_handler] takes the branch of the unset
    destination: no copy, no reply for text, the prompt for other content. *)
Lemma dump_handler_zero m w :
  zero_bound (from_user_id m) w -> outcome Store 0 w = None ->
  relayed (snd (dump_handler m w)) = relayed w
  /\ (filters.text m = true -> replies (trace (snd (dump_handler m w))) = replies (trace w))
  /\ (filters.text m = false -> outcome Send 0 w = None ->
        replies (trace (snd (dump_handler m w))) = replies (trace w) ++ [not_set_text]).
Proof.
  intros Hz Hs. unfold dump_handler, filters.text, reply_text, relayed.
  destruct (Py.truthy_text (text m)) eqn:Ht; simpl.
  - destruct (starts_with_slash (text m));
      [repeat split; intros; try discriminate; reflexivity|].
    seq. rewrite (get_zero _ _ Hz Hs). simpl. autorewrite with world. simpl.
    autorewrite with world. repeat split; intros; try discriminate; reflexivity.
  - seq. rewrite (get_zero _ _ Hz Hs). simpl.
    repeat split; intros; try discriminate.
    + unfold outside. destruct (outcome Send 0 _); simpl; autorewrite with world; simpl;
        now autorewrite with world.
    + run. now autorewrite with world.
Qed.

(** With the dump channel 0 the settings view shows what it shows for a user
    who never configured one. *)
Lemma settings_cmd_zero m w :
  zero_bound (from_user_id m) w -> outcome Store 0 w = None -> outcome Send 0 w = None ->
  replies (trace (snd (settings_cmd m w))) = replies (trace w) ++ [settings_text None].
Proof.
  intros Hz Hs Hd. unfold settings_cmd, reply_text. seq.
  rewrite (get_zero _ _ Hz Hs). run. now autorewrite with world.
Qed.

Lemma settings_cmd_unset m w :
  users w !! from_user_id m = None -> outcome Store 0 w = None -> outcome Send 0 w = None ->
  replies (trace (snd (settings_cmd m w))) = replies (trace w) ++ [settings_text None].
Proof.
  intros Hu Hs Hd. unfold settings_cmd, reply_text. seq.
  rewrite (get_absent _ _ Hs Hu). run. now autorewrite with world.
Qed.

Example settings_text_not_set :
  settings_text (Some 0) = settings_text None
  /\ Py.contains "`Not Set`" (settings_text (Some 0)) = true
  /\ Py.contains "`-1001`" (settings_text (Some (-1001))) = true.
Proof. repeat split; reflexivity. Qed.

(** What the handlers do with the body "0" when they are called:
    [save_dump_channel] accepts and stores it ([get] returns 0 afterwards,
    the confirmation is sent); from then on a message of that user is
    handled as if no channel were set:
    [dump_handler] attempts no copy, stays silent for text and sends the
    configuration prompt for other content, and [settings_cmd] shows the
    channel as not set. *)
Lemma zero_when_handlers_are_called (m m' : Message) (prompt : string) (w : World) :
  answers_prompt m prompt -> text m = Some "0" ->
  from_user_id m' = from_user_id m ->
  quiet Store w -> quiet Send w ->
  exists w', save_dump_channel m w = (Ok tt, w')
    /\ fst (get_dump_channel (from_user_id m) w') = Ok (Some 0)
    /\ replies (trace w') = replies (trace w) ++ [saved_text 0]
    /\ relayed (snd (dump_handler m' w')) = relayed w'
    /\ replies (trace (snd (dump_handler m' w')))
       = replies (trace w') ++ (if filters.text m' then [] else [not_set_text])
    /\ replies (trace (snd (settings_cmd m' w'))) = replies (trace w') ++ [settings_text None]
    /\ Py.contains "Not Set" (settings_text None) = true.
Proof.
  intros Hp Ht Hm Hqs Hqd.
  assert (Hs : forall n, outcome Store n w = None) by (intros n; now apply quiet_outcome).
  assert (Hd : forall n, outcome Send n w = None) by (intros n; now apply quiet_outcome).
  rewrite (save_accepts m prompt "0" 0 w Hp Ht eq_refl (Hs _) (Hd _)).
  eexists; split; [reflexivity|].
  match goal with |- context [get_dump_channel _ ?w1] => set (w' := w1) end.
  assert (Hz : zero_bound (from_user_id m) w').
  { destruct (upsert_lookup (from_user_id m) 0 (users w)) as (d & Hd1 & Hd2 & _).
    exists d. split; [|exact Hd2]. subst w'. autorewrite with world. exact Hd1. }
  assert (Hs' : outcome Store 0 w' = None) by (subst w'; autorewrite with world; apply Hs).
  assert (Hd' : outcome Send 0 w' = None) by (subst w'; autorewrite with world; apply Hd).
  rewrite <- Hm in Hz.
  destruct (dump_handler_zero m' w' Hz Hs') as (Hcopy & Htext & Hmedia).
  repeat split.
  - rewrite Hm in Hz. now rewrite (get_zero _ _ Hz Hs').
  - subst w'. autorewrite with world. simpl. now autorewrite with world.
  - exact Hcopy.
  - destruct (filters.text m') eqn:E.
    + rewrite app_nil_r. now apply Htext.
    + now apply Hmedia.
  - now apply settings_cmd_zero.
Qed.

(** ** Liveness *)

Lemma http_health_up rq w :
  outcome Liveness 0 w = None -> fst (http_health rq w) = Ok {| status := 200; body := "OK" |}.
Proof. intros Hp. unfold http_health, ping. run. reflexivity. Qed.

Lemma http_health_down rq w e :
  outcome Liveness 0 w = Some e ->
  fst (http_health rq w) = Ok {| status := 500; body := "MongoDB connection failed" |}.
Proof. intros Hp. unfold http_health, ping. run. reflexivity. Qed.

Lemma health_check_up m w :
  outcome Liveness 0 w = None -> outcome Send 0 w = None ->
  health_check m w =
    (Ok tt, record (ReplyText healthy_text NoMarkup) None
              (consume Send (record AdminPing None (consume Liveness w)))).
Proof. intros Hp Hd. unfold health_check, ping, reply_text. run. reflexivity. Qed.

Lemma health_check_down m w e :
  outcome Liveness 0 w = Some e -> outcome Send 0 w = None ->
  health_check m w =
    (Ok tt, record (ReplyText (unhealthy_text e) NoMarkup) None
              (consume Send (record AdminPing (Some e) (consume Liveness w)))).
Proof. intros Hp Hd. unfold health_check, ping, reply_text. run. reflexivity. Qed.

(** What the two liveness functions do when they are called.  When the
    ping succeeds, [http_health] answers 200 with body "OK" and [health_check]
    replies with the success text; when it fails with [e], [http_health]
    answers 500 with body "MongoDB connection failed" and [health_check]
    replies with the failure marker followed by the text of [e].
    (Telegram accepting the reply.) *)
Lemma health_functions_when_called (rq : Request) (m : Message) (w : World) :
  outcome Send 0 w = None ->
  match outcome Liveness 0 w with
  | None =>
      fst (http_health rq w) = Ok {| status := 200; body := "OK" |}
      /\ fst (health_check m w) = Ok tt
      /\ replies (trace (snd (health_check m w))) = replies (trace w) ++ [healthy_text]
  | Some e =>
      fst (http_health rq w) = Ok {| status := 500; body := "MongoDB connection failed" |}
      /\ fst (health_check m w) = Ok tt
      /\ replies (trace (snd (health_check m w)))
         = replies (trace w) ++ ["❌ Something is wrong!" +:+ nl +:+ message_of e]
  end.
Proof.
  intros Hd. destruct (outcome Liveness 0 w) as [e|] eqn:Hp.
  - rewrite (http_health_down rq w e Hp), (health_check_down m w e Hp Hd).
    repeat split. simpl. autorewrite with world. simpl. now autorewrite with world.
  - rewrite (http_health_up rq w Hp), (health_check_up m w Hp Hd).
    repeat split. simpl. autorewrite with world. simpl. now autorewrite with world.
Qed.

(** ** The relay *)

Section Relay.

Variables (m : Message) (d : Z) (w : World).
Hypothesis Hcontent : content m.
Hypothesis Hbound : bound (from_user_id m) d w.
Hypothesis Hset : d <> 0.
Hypothesis Hstore : outcome Store 0 w = None.

Lemma dump_handler_relays :
  dump_handler m w =
    try_except (copy d)
      [ (is_FloodWait, fun e =>
           inside (Log WARNING ("FloodWait " +:+ Py.str (value_of e) +:+ "s for user "
                                +:+ Py.str (from_user_id m)));;
           inside (Sleep (value_of e));;
           copy d);
        (is_Exception, fun e =>
           inside (Log ERROR ("Dump error for user " +:+ Py.str (from_user_id m) +:+ ": "
                              +:+ message_of e));;
           reply_text failed_text NoMarkup) ]
      (record (FindOne (from_user_id m)) None (consume Store w)).
Proof.
  unfold dump_handler. rewrite Hcontent. unfold mbind at 1, M_bind at 1.
  rewrite (get_bound _ _ _ Hbound Hstore). simpl.
  destruct (d =? 0) eqn:E; [apply Z.eqb_eq in E; contradiction|]. reflexivity.
Qed.

(** The copy goes through at once. *)
Lemma relay_succeeds :
  outcome Relay 0 w = None ->
  dump_handler m w =
    (Ok tt, record (CopyTo d) None
              (consume Relay (record (FindOne (from_user_id m)) None (consume Store w)))).
Proof. intros Hr. rewrite dump_handler_relays. unfold copy. run. reflexivity. Qed.

(** Rate limit on the first attempt, the retry goes through: one wait of
    the signalled length, two copy attempts, no reply. *)
Lemma relay_waits_and_retries W msg :
  outcome Relay 0 w = Some (Exn (FloodWait W) msg) ->
  outcome Relay 1 w = None ->
  exists w', dump_handler m w = (Ok tt, w')
    /\ sleeps (trace w') = sleeps (trace w) ++ [W]
    /\ copies (trace w') = copies (trace w) ++ [d; d]
    /\ replies (trace w') = replies (trace w).
Proof.
  intros Hr Hr'. rewrite dump_handler_relays. unfold copy. run.
  eexists; split; [reflexivity|]. autorewrite with world. simpl.
  now autorewrite with world.
Qed.

(** Rate limit on the first attempt and a failing retry: the exception of
    the retry leaves the handler; there is one wait, there are two copy
    attempts and there is no reply. *)
Lemma relay_retry_failure_escapes W msg e :
  outcome Relay 0 w = Some (Exn (FloodWait W) msg) ->
  outcome Relay 1 w = Some e ->
  exists w', dump_handler m w = (Raised e, w')
    /\ sleeps (trace w') = sleeps (trace w) ++ [W]
    /\ copies (trace w') = copies (trace w) ++ [d; d]
    /\ replies (trace w') = replies (trace w).
Proof.
  intros Hr Hr'. rewrite dump_handler_relays. unfold copy. run.
  eexists; split; [reflexivity|]. autorewrite with world. simpl.
  now autorewrite with world.
Qed.

(** Another failure of the first attempt: it is logged and reported, and
    there is no second attempt. *)
Lemma relay_failure_reported e :
  outcome Relay 0 w = Some e -> is_FloodWait e = false ->
  outcome Send 0 w = None ->
  exists w', dump_handler m w = (Ok tt, w')
    /\ copies (trace w') = copies (trace w) ++ [d]
    /\ replies (trace w') = replies (trace w) ++ [failed_text]
    /\ logged (trace w') = logged (trace w)
         ++ ["Dump error for user " +:+ Py.str (from_user_id m) +:+ ": " +:+ message_of e].
Proof.
  intros Hr Hf Hd. rewrite dump_handler_relays. unfold copy, reply_text. run.
  rewrite Hf. run.
  eexists; split; [reflexivity|]. autorewrite with world. simpl.
  now autorewrite with world.
Qed.

End Relay.

(** C2.  The rate-limit path of [dump_handler] at a failing retry: the
    handler waits the signalled 45 seconds once and makes a second copy
    attempt and no third one; the exception of the second attempt leaves the
    handler and no failure reply is sent to the sender. *)
Theorem retry_failure_is_not_reported :
  let r := dump_handler (text_message 5 "hello") flood_then_refusal in
  fst r = Raised (Exn OtherException "CHAT_WRITE_FORBIDDEN")
  /\ sleeps (trace (snd r)) = [45]
  /\ copies (trace (snd r)) = [-1001234567890; -1001234567890]
  /\ replies (trace (snd r)) = [].
Proof. vm_compute. repeat split. Qed.

(** ** Which failures a handler turns into a reply *)


Lemma start_cmd_replies m w :
  outcome Send 0 w = None ->
  start_cmd m w = (Ok tt, record (ReplyText start_text NoMarkup) None (consume Send w)).
Proof. intros Hd. unfold start_cmd, reply_text. run. reflexivity. Qed.

Lemma settings_cmd_replies m c w :
  bound (from_user_id m) c w -> outcome Store 0 w = None -> outcome Send 0 w = None ->
  settings_cmd m w =
    (Ok tt, record (ReplyText (settings_text (Some c)) settings_keyboard) None
              (consume Send (record (FindOne (from_user_id m)) None (consume Store w)))).
Proof.
  intros Hb Hs Hd. unfold settings_cmd, reply_text. seq.
  rewrite (get_bound _ _ _ Hb Hs). run. reflexivity.
Qed.

Lemma set_dump_callback_prompts q w :
  outcome Send 0 w = None -> outcome Send 1 w = None ->
  set_dump_callback q w =
    (Ok tt, record (ReplyText prompt_text (ForceReply true)) None
              (consume Send (record DeleteMessage None (consume Send w)))).
Proof. intros Hd Hd'. unfold set_dump_callback, reply_text. run. reflexivity. Qed.

Lemma save_store_failure_escapes m prompt body z e w :
  answers_prompt m prompt -> text m = Some body -> Py.int (Py.strip body) = Some z ->
  outcome Store 0 w = Some e -> is_ValueError e = false ->
  fst (save_dump_channel m w) = Raised e.
Proof.
  intros [Hr Hp] Ht Hz Hs He. unfold save_dump_channel, int_of_text.
  rewrite Hr. simpl. rewrite Hp, Ht, Hz. simpl. seq.
  rewrite (set_unreachable _ _ _ _ Hs). simpl. now rewrite He.
Qed.

(** Every private message with a text is accepted by the filter of
    [dump_handler], the first registered handler, so the dispatcher calls
    [dump_handler] for it and none of the handlers registered after it. *)
Lemma private_text_goes_to_dump_handler me m w :
  private m = true -> Py.truthy_text (text m) = true ->
  fst (dispatch me (NewMessage m) w) = Some "dump_handler"
  /\ snd (dispatch me (NewMessage m) w)
     = match dump_handler m w with
       | (Ok _, w') => w'
       | (Raised e, w') => record (Log ERROR (message_of e)) None w'
       end.
Proof.
  intros Hp Ht. unfold dispatch, handlers. simpl.
  unfold dump_filter, filters.private, filters.text. rewrite Hp, Ht. simpl.
  destruct (dump_handler m w) as [[[]|e] w']; split; reflexivity.
Qed.



(** ** Commands and the registration order *)

(** C9.  The three commands sent as private text messages: the filter of
    the command handler accepts the message, yet the dispatcher calls
    [dump_handler], which is registered first and whose filter accepts
    every private text; it returns at its prefix test, so the command
    handler does not run and no reply is sent: the world is left as it
    was. *)
Theorem commands_stop_at_dump_handler (me : string) (user_id : Z) (w : World) :
  (start_filter me (text_message user_id "/start") = true
   /\ dispatch me (NewMessage (text_message user_id "/start")) w = (Some "dump_handler", w))
  /\ (settings_filter me (text_message user_id "/settings") = true
      /\ dispatch me (NewMessage (text_message user_id "/settings")) w = (Some "dump_handler", w))
  /\ (health_filter me (text_message user_id "/health") = true
      /\ dispatch me (NewMessage (text_message user_id "/health")) w = (Some "dump_handler", w)).
Proof. repeat split; reflexivity. Qed.

(** C1.  A reply to the prompt, as the bot receives it: the message is a
    private text, so the dispatcher calls [dump_handler], registered first,
    and not [save_dump_channel].  For the body "-1001234567890" nothing is
    stored ([get] still returns [None]) and no confirmation is sent; for
    the body "abc" no invalid-input reply is sent; and when the sender is
    already bound to a channel the reply is copied to that channel. *)
Theorem configuration_reply_stops_at_dump_handler (me : string) :
  let submit body w := dispatch me (NewMessage (reply_message 5 body prompt_text)) w in
  (save_filter (reply_message 5 "-1001234567890" prompt_text) = true
   /\ answers_prompt (reply_message 5 "-1001234567890" prompt_text) prompt_text)
  /\ (fst (submit "-1001234567890" (fresh ∅)) = Some "dump_handler"
      /\ users (snd (submit "-1001234567890" (fresh ∅))) = ∅
      /\ fst (get_dump_channel 5 (snd (submit "-1001234567890" (fresh ∅)))) = Ok None
      /\ replies (trace (snd (submit "-1001234567890" (fresh ∅)))) = [])
  /\ (fst (submit "abc" (fresh ∅)) = Some "dump_handler"
      /\ replies (trace (snd (submit "abc" (fresh ∅)))) = [])
  /\ (fst (submit "-1002" (fresh (upsert_dump_channel 5 (-1001) ∅))) = Some "dump_handler"
      /\ users (snd (submit "-1002" (fresh (upsert_dump_channel 5 (-1001) ∅))))
         = upsert_dump_channel 5 (-1001) ∅
      /\ relayed (snd (submit "-1002" (fresh (upsert_dump_channel 5 (-1001) ∅)))) = [-1001]
      /\ replies (trace (snd (submit "-1002" (fresh (upsert_dump_channel 5 (-1001) ∅))))) = []).
Proof. cbv zeta. repeat split; vm_compute; reflexivity. Qed.

(** C7.  The two liveness surfaces, the store reachable and not: the HTTP
    probe answers 200 "OK" and 500 "MongoDB connection failed"; the private
    text "/health" is given to [dump_handler], which returns at its prefix
    test, so in both cases there is no ping and no reply: the world is left
    as it was. *)
Theorem health_command_gets_no_answer (me : string) (rq : Request) :
  (fst (http_health rq (fresh ∅)) = Ok {| status := 200; body := "OK" |}
   /\ fst (http_health rq (store_down "timed out"))
      = Ok {| status := 500; body := "MongoDB connection failed" |})
  /\ health_filter me (text_message 5 "/health") = true
  /\ dispatch me (NewMessage (text_message 5 "/health")) (fresh ∅)
     = (Some "dump_handler", fresh ∅)
  /\ dispatch me (NewMessage (text_message 5 "/health")) (store_down "timed out")
     = (Some "dump_handler", store_down "timed out").
Proof. repeat split; reflexivity. Qed.

(** C10.  The body "0" sent as a reply to the prompt is given to
    [dump_handler] like every private text: it is not stored and not
    confirmed.  A user whose document holds the channel 0 is treated as one
    without a channel: a photo is answered with the configuration prompt, a
    text with nothing, and neither is copied; [settings_cmd] would show the
    channel as "Not Set", but the text "/settings" is given to
    [dump_handler] too and no settings view is sent. *)
Theorem zero_submission_stops_at_dump_handler (me : string) :
  let zero := fresh (upsert_dump_channel 5 0 ∅) in
  (shown_channel (Some 0) = "Not Set"
   /\ replies (trace (snd (settings_cmd (text_message 5 "/settings") zero)))
      = [settings_text None]
   /\ settings_filter me (text_message 5 "/settings") = true
   /\ dispatch me (NewMessage (text_message 5 "/settings")) zero = (Some "dump_handler", zero)) /\
  (fst (dispatch me (NewMessage (reply_message 5 "0" prompt_text)) (fresh ∅))
   = Some "dump_handler"
   /\ users (snd (dispatch me (NewMessage (reply_message 5 "0" prompt_text)) (fresh ∅))) = ∅
   /\ replies (trace (snd (dispatch me (NewMessage (reply_message 5 "0" prompt_text))
                             (fresh ∅)))) = [])
  /\ (fst (get_dump_channel 5 zero) = Ok (Some 0)
      /\ replies (trace (snd (dispatch me (NewMessage (media_message 5 Photo)) zero)))
         = [not_set_text]
      /\ relayed (snd (dispatch me (NewMessage (media_message 5 Photo)) zero)) = []
      /\ replies (trace (snd (dispatch me (NewMessage (text_message 5 "hello")) zero))) = []
      /\ relayed (snd (dispatch me (NewMessage (text_message 5 "hello")) zero)) = []).
Proof. cbv zeta. repeat split; vm_compute; reflexivity. Qed.

(** * Further properties of the code *)

(** Case analysis on the outcome of every outside call that is left. *)
Ltac split_outcomes :=
  repeat match goal with
  | |- context [outside ?s ?c ?w] => unfold outside at 1
  | |- context [match outcome ?s ?n ?w with _ => _ end] =>
      let E := fresh "E" in destruct (outcome s n w) eqn:E
  end.

(** ** The registry read *)

(** What [get_dump_channel] can do: raise what the store raised, return
    [None], return the channel of the user's document, or raise on a
    document without the field. *)
Lemma get_cases u w :
  (exists e, outcome Store 0 w = Some e
     /\ get_dump_channel u w = (Raised e, record (FindOne u) (Some e) (consume Store w)))
  \/ (outcome Store 0 w = None
      /\ exists r, get_dump_channel u w = (r, record (FindOne u) None (consume Store w))
         /\ (r = Ok None
             \/ (exists c, r = Ok (Some c) /\ bound u c w)
             \/ (r = Raised (Exn KeyError "'dump_channel'")
                 /\ exists d, users w !! u = Some d /\ d !! "dump_channel" = None /\ d <> ∅))).
Proof.
  destruct (outcome Store 0 w) as [e|] eqn:Hs.
  - left. exists e. split; [reflexivity|]. now apply get_unreachable.
  - right. split; [reflexivity|].
    unfold get_dump_channel, find_one. run.
    destruct (users w !! u) as [d|] eqn:Hu; simpl.
    + destruct (bool_decide (d = ∅)) eqn:Hd; simpl.
      * eexists; split; [reflexivity|]. now left.
      * apply bool_decide_eq_false in Hd. unfold subscript_dump_channel.
        destruct (d !! "dump_channel") as [c|] eqn:Hc; simpl.
        -- eexists; split; [reflexivity|]. right; left. exists c. split; [reflexivity|].
           exists d. now split.
        -- eexists; split; [reflexivity|]. right; right. split; [reflexivity|].
           exists d. now repeat split.
    + eexists; split; [reflexivity|]. now left.
Qed.

(** X1.  A document without the dump channel field makes [get_dump_channel]
    raise [KeyError]; [settings_cmd] and, for a message it does not skip,
    [dump_handler] let it escape and send nothing. *)
Theorem document_without_channel_raises_KeyError (m : Message) (d : document) (w : World) :
  users w !! from_user_id m = Some d -> d <> ∅ -> d !! "dump_channel" = None ->
  outcome Store 0 w = None ->
  fst (get_dump_channel (from_user_id m) w) = Raised (Exn KeyError "'dump_channel'")
  /\ fst (settings_cmd m w) = Raised (Exn KeyError "'dump_channel'")
  /\ replies (trace (snd (settings_cmd m w))) = replies (trace w)
  /\ (content m ->
        fst (dump_handler m w) = Raised (Exn KeyError "'dump_channel'")
        /\ replies (trace (snd (dump_handler m w))) = replies (trace w)
        /\ relayed (snd (dump_handler m w)) = relayed w).
Proof.
  intros Hu Hne Hd Hs.
  assert (Hget : get_dump_channel (from_user_id m) w
                 = (Raised (Exn KeyError "'dump_channel'"),
                    record (FindOne (from_user_id m)) None (consume Store w))).
  { unfold get_dump_channel, find_one. run. rewrite Hu. simpl.
    rewrite bool_decide_eq_false_2 by assumption. simpl.
    unfold subscript_dump_channel. now rewrite Hd. }
  split; [now rewrite Hget|]. split; [unfold settings_cmd; seq; now rewrite Hget|].
  split.
  { unfold settings_cmd. seq. rewrite Hget. simpl. now autorewrite with world. }
  intros Hc. unfold content in Hc. unfold dump_handler, relayed. rewrite Hc. seq.
  rewrite Hget. simpl. autorewrite with world. repeat split; reflexivity.
Qed.

Lemma document_without_channel_raises_KeyError_witness :
  fst (get_dump_channel 5 (fresh {[5 := {["_id" := 5]}]}))
  = Raised (Exn KeyError "'dump_channel'").
Proof.
  apply (document_without_channel_raises_KeyError (text_message 5 "hello") {["_id" := 5]}
           (fresh {[5 := {["_id" := 5]}]})); try reflexivity.
  vm_compute. discriminate.
Defined.

(** ** The relay path *)

(** X2.  A message that is not skipped as a command, from a user bound to a
    channel other than 0, is copied to that channel once when the copy goes
    through: no reply, no wait, the registry untouched. *)
Theorem content_is_copied_once (m : Message) (d : Z) (w : World) :
  content m -> bound (from_user_id m) d w -> d <> 0 ->
  outcome Store 0 w = None -> outcome Relay 0 w = None ->
  exists w', dump_handler m w = (Ok tt, w')
    /\ relayed w' = relayed w ++ [d]
    /\ replies (trace w') = replies (trace w)
    /\ sleeps (trace w') = sleeps (trace w)
    /\ users w' = users w.
Proof.
  intros Hc Hb Hd Hs Hr. rewrite (relay_succeeds m d w Hc Hb Hd Hs Hr).
  eexists; split; [reflexivity|]. unfold relayed. autorewrite with world. simpl.
  autorewrite with world. repeat split; reflexivity.
Qed.

Lemma content_is_copied_once_witness :
  exists w', dump_handler (media_message 5 Photo) (fresh (upsert_dump_channel 5 (-1001) ∅))
             = (Ok tt, w')
    /\ relayed w' = [-1001]
    /\ replies (trace w') = []
    /\ sleeps (trace w') = []
    /\ users w' = upsert_dump_channel 5 (-1001) ∅.
Proof.
  apply (content_is_copied_once (media_message 5 Photo) (-1001)
           (fresh (upsert_dump_channel 5 (-1001) ∅))); try reflexivity.
  - eexists; split; reflexivity.
  - discriminate.
Defined.

(** X3.  When the first copy attempt meets a rate limit of [W] seconds and
    the retry goes through, the handler returns normally: a warning line
    with [W] and the user id is logged, there is one wait of [W], there are
    two copy attempts to the channel and no reply. *)
Theorem rate_limit_is_waited_out (m : Message) (d W : Z) (msg : string) (w : World) :
  content m -> bound (from_user_id m) d w -> d <> 0 ->
  outcome Store 0 w = None ->
  outcome Relay 0 w = Some (Exn (FloodWait W) msg) -> outcome Relay 1 w = None ->
  exists w', dump_handler m w = (Ok tt, w')
    /\ logged (trace w') = logged (trace w)
         ++ ["FloodWait " +:+ Py.str W +:+ "s for user " +:+ Py.str (from_user_id m)]
    /\ sleeps (trace w') = sleeps (trace w) ++ [W]
    /\ relayed w' = relayed w ++ [d; d]
    /\ replies (trace w') = replies (trace w).
Proof.
  intros Hc Hb Hd Hs Hr Hr'. rewrite (dump_handler_relays m d w Hc Hb Hd Hs).
  unfold copy. run. eexists; split; [reflexivity|].
  unfold relayed. autorewrite with world. simpl. autorewrite with world.
  repeat split; reflexivity.
Qed.

Lemma rate_limit_is_waited_out_witness :
  exists w', dump_handler (text_message 5 "hello") flood_then_success = (Ok tt, w')
    /\ logged (trace w') = ["FloodWait 45s for user 5"]
    /\ sleeps (trace w') = [45]
    /\ relayed w' = [-1001; -1001]
    /\ replies (trace w') = [].
Proof.
  apply (rate_limit_is_waited_out (text_message 5 "hello") (-1001) 45 "FLOOD_WAIT_45"
           flood_then_success); try reflexivity.
  - eexists; split; reflexivity.
  - discriminate.
Defined.

(** X4.  A failure of the first copy attempt that is not a rate limit is
    not retried: there is one copy attempt and no wait, whether or not the
    failure notice can be sent. *)
Theorem other_failure_is_not_retried (m : Message) (d : Z) (e : exn) (w : World) :
  content m -> bound (from_user_id m) d w -> d <> 0 ->
  outcome Store 0 w = None ->
  outcome Relay 0 w = Some e -> is_FloodWait e = false ->
  relayed (snd (dump_handler m w)) = relayed w ++ [d]
  /\ sleeps (trace (snd (dump_handler m w))) = sleeps (trace w).
Proof.
  intros Hc Hb Hd Hs Hr Hf. rewrite (dump_handler_relays m d w Hc Hb Hd Hs).
  unfold copy, reply_text. run. rewrite Hf. simpl. seq. split_outcomes;
    unfold relayed; simpl; autorewrite with world; simpl; autorewrite with world;
    split; reflexivity.
Qed.

Lemma other_failure_is_not_retried_witness :
  relayed (snd (dump_handler (text_message 5 "hello")
     {| users := upsert_dump_channel 5 (-1001) ∅;
        upcoming := fun s => match s with
                             | Relay => [Some (Exn OtherException "CHAT_WRITE_FORBIDDEN")]
                             | _ => []
                             end;
        trace := [] |})) = [-1001].
Proof.
  apply (other_failure_is_not_retried (text_message 5 "hello") (-1001)
           (Exn OtherException "CHAT_WRITE_FORBIDDEN")); try reflexivity.
  - eexists; split; reflexivity.
  - discriminate.
Defined.

(** X5.  Whatever the message and whatever the outside answers,
    [dump_handler] makes at most two copy attempts, and each of them goes to
    the channel bound to the sender, which is not 0: a message is never
    copied to the channel of another user. *)
Theorem copies_go_to_the_channel_of_the_sender (m : Message) (w : World) :
  exists l, relayed (snd (dump_handler m w)) = relayed w ++ l
    /\ (length l <= 2)%nat
    /\ forall c, In c l -> bound (from_user_id m) c w /\ c <> 0.
Proof.
  unfold dump_handler.
  destruct (Py.truthy_text (text m) && starts_with_slash (text m)).
  { exists []. simpl. rewrite app_nil_r. repeat split; [lia|contradiction|contradiction]. }
  seq.
  destruct (get_cases (from_user_id m) w) as [(e & _ & ->)|(_ & r & -> & Hr)].
  { exists []. unfold relayed. simpl. autorewrite with world.
    repeat split; [simpl; lia|contradiction|contradiction]. }
  destruct Hr as [->|[(c & -> & Hb)|(-> & _)]]; simpl.
  - exists []. unfold reply_text.
    destruct (Py.truthy_text (text m)); split_outcomes; unfold relayed; simpl;
      autorewrite with world; simpl; autorewrite with world;
      (repeat split; [simpl; lia|contradiction|contradiction]).
  - destruct (c =? 0) eqn:Ec; simpl.
    + exists []. unfold reply_text.
      destruct (Py.truthy_text (text m)); split_outcomes; unfold relayed; simpl;
        autorewrite with world; simpl; autorewrite with world;
        (repeat split; [simpl; lia|contradiction|contradiction]).
    + apply Z.eqb_neq in Ec.
      assert (Hin1 : forall x, In x [c] -> bound (from_user_id m) x w /\ x <> 0)
        by (intros x [<-|[]]; now split).
      assert (Hin2 : forall x, In x [c; c] -> bound (from_user_id m) x w /\ x <> 0)
        by (intros x [<-|[<-|[]]]; now split).
      unfold copy, reply_text. unfold outside at 1.
      destruct (outcome Relay 0 _) as [e|] eqn:E1; simpl.
      * destruct (is_FloodWait e) eqn:Ef; simpl; seq; split_outcomes;
          first
            [ exists [c; c]; unfold relayed; simpl; autorewrite with world; simpl;
              autorewrite with world; split; [reflexivity|split; [simpl; lia|exact Hin2]]
            | exists [c]; unfold relayed; simpl; autorewrite with world; simpl;
              autorewrite with world; split; [reflexivity|split; [simpl; lia|exact Hin1]] ].
      * exists [c]. unfold relayed; simpl; autorewrite with world; simpl;
          autorewrite with world. split; [reflexivity|split; [simpl; lia|exact Hin1]].
  - exists []. unfold relayed. simpl. autorewrite with world.
    repeat split; [simpl; lia|contradiction|contradiction].
Qed.

(** ** Who writes to the registry *)

(** X6.  Of the registered handlers only [save_dump_channel] can change the
    users collection: every other handler leaves it as it was, on every
    update and whatever the outside answers; so does the HTTP probe. *)
Theorem only_save_dump_channel_writes (me : string) (h : Handler) (u : Update) (w : World) :
  In h (handlers me) -> name h <> "save_dump_channel" ->
  users (snd (callback h u w)) = users w
  /\ forall rq, users (snd (http_health rq w)) = users w.
Proof.
  intros Hin Hname. split; [|intros rq; apply http_health_no_write].
  unfold handlers in Hin. simpl in Hin.
  destruct Hin as [<-|[<-|[<-|[<-|[<-|[<-|[]]]]]]]; simpl in *;
    try congruence; destruct u as [m|q]; simpl; try reflexivity.
  - apply dump_no_write.
  - apply start_no_write.
  - apply settings_no_write.
  - apply callback_no_write.
  - apply health_no_write.
Qed.

Lemma only_save_dump_channel_writes_witness :
  users (snd (dump_handler (media_message 5 Photo) flood_then_refusal))
  = users flood_then_refusal.
Proof.
  apply (only_save_dump_channel_writes "DumpBot"
           (on_message "dump_handler" dump_filter dump_handler)
           (NewMessage (media_message 5 Photo)) flood_then_refusal).
  - simpl; tauto.
  - discriminate.
Defined.

(** What [save_dump_channel] can do to the collection: nothing, or the
    upsert of the integer read from the body under the sender's id. *)
Lemma save_users_cases m w :
  users (snd (save_dump_channel m w)) = users w
  \/ exists body z, text m = Some body /\ Py.int (Py.strip body) = Some z
       /\ users (snd (save_dump_channel m w))
          = upsert_dump_channel (from_user_id m) z (users w).
Proof.
  unfold save_dump_channel, int_of_text, reply_text, set_dump_channel, update_one.
  destruct (reply_to_message m) as [r|]; [|now left].
  destruct (replied_text r) as [p|]; [|now left].
  destruct (negb (Py.contains marker p)); [now left|].
  destruct (text m) as [body|]; [|now left].
  destruct (Py.int (Py.strip body)) as [z|] eqn:Hz.
  - seq. simpl.
    repeat (first [ progress split_outcomes
                  | match goal with
                    | |- context [is_ValueError ?e] => destruct (is_ValueError e)
                    end ]; simpl);
      first [ left; reflexivity
            | right; exists body, z; repeat split; first [reflexivity | assumption] ].
  - left. seq. simpl. split_outcomes; reflexivity.
Qed.

(** X7.  [save_dump_channel] touches no document but the sender's: the
    document of every other user is after the call what it was before,
    whatever the message and whatever the outside answers. *)
Theorem save_touches_only_the_sender (m : Message) (v : Z) (w : World) :
  v <> from_user_id m ->
  users (snd (save_dump_channel m w)) !! v = users w !! v.
Proof.
  intros Hv. destruct (save_users_cases m w) as [->|(body & z & _ & _ & ->)]; [reflexivity|].
  apply upsert_lookup_ne. congruence.
Qed.

Lemma save_touches_only_the_sender_witness :
  users (snd (save_dump_channel (reply_message 5 "-1002" prompt_text)
                (fresh (upsert_dump_channel 6 (-1001) ∅)))) !! 6
  = upsert_dump_channel 6 (-1001) ∅ !! 6.
Proof.
  apply (save_touches_only_the_sender (reply_message 5 "-1002" prompt_text) 6
           (fresh (upsert_dump_channel 6 (-1001) ∅))).
  discriminate.
Defined.

(** ** Configuration submissions: the edges *)

(** X8.  [save_dump_channel] does nothing at all, no store call and no
    reply, for a message that carries no replied-to message or that replies
    to a text without the marker; for a reply to a message without text the
    marker test raises [TypeError], which the handler does not guard, and
    the world is untouched as well. *)
Theorem save_ignores_other_replies (m : Message) (w : World) :
  (reply_to_message m = None -> save_dump_channel m w = (Ok tt, w))
  /\ (forall other, reply_to_message m = Some {| replied_text := Some other |} ->
        Py.contains marker other = false -> save_dump_channel m w = (Ok tt, w))
  /\ (reply_to_message m = Some {| replied_text := None |} ->
        exists e, save_dump_channel m w = (Raised e, w) /\ cls e = TypeError).
Proof.
  unfold save_dump_channel. repeat split.
  - intros ->. reflexivity.
  - intros other -> Hc. simpl. now rewrite Hc.
  - intros ->. simpl. eexists; split; reflexivity.
Qed.

Lemma save_ignores_other_replies_witness :
  save_dump_channel (reply_message 5 "-1001" not_set_text) (fresh ∅) = (Ok tt, fresh ∅).
Proof.
  destruct (save_ignores_other_replies (reply_message 5 "-1001" not_set_text) (fresh ∅))
    as (_ & H & _).
  apply (H not_set_text); reflexivity.
Defined.

(** X9.  When the store accepted the write and the confirmation cannot be
    sent, the exception of the send leaves [save_dump_channel] (it is not a
    [ValueError]) and the binding stays stored: a later [get] returns the
    new channel although the user saw no confirmation. *)
Theorem binding_is_stored_without_confirmation
    (m : Message) (prompt body : string) (z : Z) (e : exn) (w : World) :
  answers_prompt m prompt -> text m = Some body -> Py.int (Py.strip body) = Some z ->
  quiet Store w -> outcome Send 0 w = Some e -> is_ValueError e = false ->
  exists w', save_dump_channel m w = (Raised e, w')
    /\ replies (trace w') = replies (trace w)
    /\ fst (get_dump_channel (from_user_id m) w') = Ok (Some z).
Proof.
  intros [Hr Hp] Ht Hz Hq Hd He.
  assert (Hs : forall n, outcome Store n w = None) by (intros n; now apply quiet_outcome).
  unfold save_dump_channel, int_of_text, reply_text.
  rewrite Hr. simpl. rewrite Hp, Ht, Hz. simpl. seq.
  rewrite (set_writes _ _ _ (Hs _)). run. rewrite He.
  eexists; split; [reflexivity|]. split.
  - autorewrite with world. simpl. now autorewrite with world.
  - destruct (upsert_lookup (from_user_id m) z (users w)) as (d & Hd1 & Hd2 & Hd3).
    erewrite get_reads; [reflexivity | | | exact Hd2 | exact Hd3].
    + autorewrite with world. apply Hs.
    + autorewrite with world. exact Hd1.
Qed.

Lemma binding_is_stored_without_confirmation_witness :
  exists w', save_dump_channel (reply_message 5 "-1001" prompt_text) send_refused
             = (Raised (Exn OtherException "USER_IS_BLOCKED"), w')
    /\ replies (trace w') = []
    /\ fst (get_dump_channel 5 w') = Ok (Some (-1001)).
Proof.
  apply (binding_is_stored_without_confirmation (reply_message 5 "-1001" prompt_text)
           prompt_text "-1001" (-1001) (Exn OtherException "USER_IS_BLOCKED") send_refused);
    try reflexivity.
  split; reflexivity.
Defined.

(** ** The callback of the settings button *)

(** X10.  [set_dump_callback] first deletes the message that carried the
    button and then sends the prompt as a forced reply; the prompt carries
    the marker that [save_dump_channel] looks for.  When the delete fails
    the prompt is not sent and the exception leaves the handler.  The
    registry is not touched either way. *)
Theorem callback_deletes_then_prompts (q : CallbackQuery) (w : World) :
  (outcome Send 0 w = None -> outcome Send 1 w = None ->
     exists w', set_dump_callback q w = (Ok tt, w')
       /\ trace w' = trace w ++ [(DeleteMessage, None);
                                 (ReplyText prompt_text (ForceReply true), None)]
       /\ Py.contains marker prompt_text = true
       /\ users w' = users w)
  /\ (forall e, outcome Send 0 w = Some e ->
        exists w', set_dump_callback q w = (Raised e, w')
          /\ replies (trace w') = replies (trace w)
          /\ users w' = users w).
Proof.
  split.
  - intros Hd Hd'. rewrite (set_dump_callback_prompts q w Hd Hd').
    eexists; split; [reflexivity|]. autorewrite with world. simpl.
    repeat split; reflexivity.
  - intros e Hd. unfold set_dump_callback, reply_text. run.
    eexists; split; [reflexivity|]. simpl. autorewrite with world. split; reflexivity.
Qed.

Lemma callback_deletes_then_prompts_witness :
  exists w', set_dump_callback {| data := "set_dump"; in_message := text_message 5 "menu" |}
               (fresh ∅) = (Ok tt, w')
    /\ trace w' = [(DeleteMessage, None); (ReplyText prompt_text (ForceReply true), None)]
    /\ Py.contains marker prompt_text = true
    /\ users w' = ∅.
Proof.
  destruct (callback_deletes_then_prompts
              {| data := "set_dump"; in_message := text_message 5 "menu" |} (fresh ∅))
    as [H _].
  apply H; reflexivity.
Defined.

(** ** The health command: a reply that cannot be sent *)

(** X11.  The [try] of [health_check] covers the success reply too: when the
    ping succeeds and sending the success text fails with [e], the handler
    sends the failure text with the text of [e], although the store is
    reachable. *)
Theorem failed_success_reply_is_reported_as_unhealthy (m : Message) (e : exn) (w : World) :
  outcome Liveness 0 w = None -> outcome Send 0 w = Some e -> outcome Send 1 w = None ->
  exists w', health_check m w = (Ok tt, w')
    /\ replies (trace w') = replies (trace w) ++ [unhealthy_text e].
Proof.
  intros Hp Hd Hd'. unfold health_check, ping, reply_text. run.
  eexists; split; [reflexivity|]. autorewrite with world. simpl. now autorewrite with world.
Qed.

Lemma failed_success_reply_is_reported_as_unhealthy_witness :
  exists w', health_check (text_message 5 "/health") send_refused = (Ok tt, w')
    /\ replies (trace w') = [unhealthy_text (Exn OtherException "USER_IS_BLOCKED")].
Proof.
  apply (failed_success_reply_is_reported_as_unhealthy (text_message 5 "/health")
           (Exn OtherException "USER_IS_BLOCKED") send_refused); reflexivity.
Defined.

(** ** The shape of the documents *)

Lemma upsert_well_formed u c coll :
  well_formed coll -> well_formed (upsert_dump_channel u c coll).
Proof.
  intros Hwf v d Hv. destruct (decide (u = v)) as [<-|Hne].
  - unfold upsert_dump_channel in Hv. destruct (coll !! u) as [d0|] eqn:Hu;
      rewrite lookup_insert_eq in Hv; injection Hv as <-.
    + destruct (Hwf u d0 Hu) as [Hid _]. split.
      * now rewrite lookup_insert_ne.
      * exists c. apply lookup_insert_eq.
    + split.
      * rewrite lookup_insert_ne by discriminate. apply lookup_singleton_eq.
      * exists c. apply lookup_insert_eq.
  - rewrite upsert_lookup_ne in Hv by assumption. exact (Hwf v d Hv).
Qed.

(** X12.  The handlers keep the documents in shape: when every document of
    the collection carries its [_id] and a dump channel, this is still so
    after any registered handler ran on any update, whatever the outside
    answered; and on such a collection [get_dump_channel] does not raise
    once the store has answered the lookup. *)
Theorem handlers_keep_documents_well_formed
    (me : string) (h : Handler) (u : Update) (v : Z) (w : World) :
  In h (handlers me) -> well_formed (users w) ->
  well_formed (users (snd (callback h u w)))
  /\ (outcome Store 0 w = None -> exists r, fst (get_dump_channel v w) = Ok r).
Proof.
  intros Hin Hwf. split.
  - unfold handlers in Hin. simpl in Hin.
    destruct Hin as [<-|[<-|[<-|[<-|[<-|[<-|[]]]]]]]; destruct u as [m|q]; simpl;
      try exact Hwf.
    + now rewrite dump_no_write.
    + now rewrite start_no_write.
    + now rewrite settings_no_write.
    + now rewrite callback_no_write.
    + destruct (save_users_cases m w) as [->|(body & z & _ & _ & ->)]; [exact Hwf|].
      now apply upsert_well_formed.
    + now rewrite health_no_write.
  - intros Hs. destruct (get_cases v w) as [(e & He & _)|(_ & r & -> & Hr)]; [congruence|].
    destruct Hr as [->|[(c & -> & _)|(_ & d & Hd & Hnone & _)]]; simpl; eauto.
    destruct (Hwf v d Hd) as [_ [c Hc]]. congruence.
Qed.

Lemma handlers_keep_documents_well_formed_witness :
  well_formed (users (snd (save_dump_channel (reply_message 5 "-1001" prompt_text) (fresh ∅)))).
Proof.
  apply (handlers_keep_documents_well_formed "DumpBot"
           (on_message "save_dump_channel" save_filter save_dump_channel)
           (NewMessage (reply_message 5 "-1001" prompt_text)) 5 (fresh ∅)).
  - simpl; tauto.
  - intros u d Hu. cbn in Hu. rewrite lookup_empty in Hu. discriminate.
Defined.

(** ** Filters and the registration order *)

(** X13.  Every decorator asks for a private chat: a message from a group or
    a channel is accepted by no handler, so the dispatcher calls none and
    the world is left as it was. *)
Theorem messages_outside_private_chats_are_ignored (me : string) (m : Message) (w : World) :
  private m = false ->
  (forall h, In h (handlers me) -> accepts h (NewMessage m) = false)
  /\ dispatch me (NewMessage m) w = (None, w).
Proof.
  intros Hp.
  assert (Hall : forall h, In h (handlers me) -> accepts h (NewMessage m) = false).
  { intros h Hin. unfold handlers in Hin. simpl in Hin.
    destruct Hin as [<-|[<-|[<-|[<-|[<-|[<-|[]]]]]]]; simpl;
      unfold dump_filter, start_filter, settings_filter, save_filter, health_filter,
        filters.private; rewrite ?Hp, ?andb_false_r; reflexivity. }
  split; [exact Hall|].
  unfold dispatch. destruct (find _ (handlers me)) as [h|] eqn:E; [|reflexivity].
  apply find_some in E as [Hin Hacc]. rewrite (Hall h Hin) in Hacc. discriminate.
Qed.

Lemma messages_outside_private_chats_are_ignored_witness :
  dispatch "DumpBot"
    (NewMessage {| private := false; from_user_id := 5; text := Some "/start"; caption := None;
                   media := None; reply_to_message_id := None; reply_to_message := None |})
    (fresh ∅) = (None, fresh ∅).
Proof.
  apply (messages_outside_private_chats_are_ignored "DumpBot"). reflexivity.
Defined.

Lemma save_filter_covered m : save_filter m = true -> dump_filter m = true.
Proof.
  unfold save_filter, dump_filter, filters.private, filters.text.
  intros H. apply andb_prop in H as [H Ht]. apply andb_prop in H as [Hp _].
  now rewrite Hp, Ht.
Qed.

(** X14.  Every message that the filter of [save_dump_channel] accepts
    (private, a reply, with text) is accepted by the filter of
    [dump_handler] as well, which is registered before it: the dispatcher
    calls [dump_handler] for it, not [save_dump_channel]. *)
Theorem save_filter_is_covered_by_dump_filter (me : string) (m : Message) (w : World) :
  save_filter m = true ->
  dump_filter m = true
  /\ fst (dispatch me (NewMessage m) w) = Some "dump_handler".
Proof.
  intros H. split; [now apply save_filter_covered|].
  unfold save_filter, filters.private, filters.text in H.
  apply andb_prop in H as [H Ht]. apply andb_prop in H as [Hp _].
  now apply private_text_goes_to_dump_handler.
Qed.

Lemma save_filter_is_covered_by_dump_filter_witness :
  dump_filter (reply_message 5 "-1001" prompt_text) = true
  /\ fst (dispatch "DumpBot" (NewMessage (reply_message 5 "-1001" prompt_text)) (fresh ∅))
     = Some "dump_handler".
Proof.
  apply (save_filter_is_covered_by_dump_filter "DumpBot" (reply_message 5 "-1001" prompt_text)
           (fresh ∅)).
  reflexivity.
Defined.

Lemma users_after_called {n : string} (c : M unit) (w : World) :
  stable users c ->
  users (snd (match c w with
              | (Ok _, w') => (Some n, w')
              | (Raised e, w') => (Some n, record (Log ERROR (message_of e)) None w')
              end)) = users w.
Proof.
  intros Hc. specialize (Hc w). destruct (c w) as [[[]|e] w']; exact Hc.
Qed.

(** X15.  With the handlers registered in this order the dispatcher never
    changes the users collection, whatever the update and whatever the
    outside answers: the one handler that writes, [save_dump_channel], is
    not reached. *)
Theorem dispatch_never_writes (me : string) (u : Update) (w : World) :
  users (snd (dispatch me u w)) = users w.
Proof.
  unfold dispatch, handlers. destruct u as [m|q]; simpl.
  - destruct (dump_filter m) eqn:Ed; [apply users_after_called, dump_no_write|].
    destruct (start_filter me m); [apply users_after_called, start_no_write|].
    destruct (settings_filter me m); [apply users_after_called, settings_no_write|].
    destruct (save_filter m) eqn:Es.
    { rewrite (save_filter_covered m Es) in Ed. discriminate. }
    destruct (health_filter me m); [apply users_after_called, health_no_write|].
    reflexivity.
  - destruct (filters.regex_set_dump q); [apply users_after_called, callback_no_write|].
    reflexivity.
Qed.

(** ** Texts *)

Lemma prefix_refl s : String.prefix s s = true.
Proof.
  induction s as [|c s IH]; simpl; [reflexivity|].
  destruct (ascii_dec c c); [exact IH|congruence].
Qed.

Lemma contains_refl s : Py.contains s s = true.
Proof. destruct s; [reflexivity|]. cbn [Py.contains]. now rewrite prefix_refl. Qed.

(** What is found in a text is found in every text that ends with it. *)
Lemma contains_skip p s t : Py.contains s t = true -> Py.contains s (p +:+ t) = true.
Proof.
  intros H. induction p as [|c p IH]; [exact H|].
  change ((String c p) +:+ t) with (String c (p +:+ t)). cbn [Py.contains].
  rewrite IH. apply orb_true_r.
Qed.

(** ** From the configuration to the relay *)

Lemma shown_between_backquotes z :
  z <> 0 -> Py.contains ("`" +:+ Py.str z +:+ "`") (settings_text (Some z)) = true.
Proof.
  intros Hne. unfold settings_text, shown_channel, truthy_channel.
  destruct (z =? 0) eqn:E; [apply Z.eqb_eq in E; contradiction|].
  apply (contains_skip "**⚙ Your Settings**"), (contains_skip nl), (contains_skip nl),
    (contains_skip "📦 Dump Channel ID:"), (contains_skip nl), contains_refl.
Qed.

(** X16.  Once [save_dump_channel] has stored a channel other than 0, the
    handlers use it: [settings_cmd] shows it, in decimal between
    backquotes, and [dump_handler] copies a content message of that user to
    it, once and without a reply. *)
Theorem configured_channel_is_used
    (m m' : Message) (prompt body : string) (z : Z) (w : World) :
  answers_prompt m prompt -> text m = Some body -> Py.int (Py.strip body) = Some z ->
  z <> 0 ->
  from_user_id m' = from_user_id m -> content m' ->
  quiet Store w -> quiet Send w -> quiet Relay w ->
  exists w', save_dump_channel m w = (Ok tt, w')
    /\ replies (trace (snd (settings_cmd m' w'))) = replies (trace w') ++ [settings_text (Some z)]
    /\ Py.contains ("`" +:+ Py.str z +:+ "`") (settings_text (Some z)) = true
    /\ fst (dump_handler m' w') = Ok tt
    /\ relayed (snd (dump_handler m' w')) = relayed w' ++ [z]
    /\ replies (trace (snd (dump_handler m' w'))) = replies (trace w').
Proof.
  intros Hp Ht Hz Hne Hm Hc Hqs Hqd Hqr.
  assert (Hs : forall n, outcome Store n w = None) by (intros n; now apply quiet_outcome).
  assert (Hd : forall n, outcome Send n w = None) by (intros n; now apply quiet_outcome).
  assert (Hr : forall n, outcome Relay n w = None) by (intros n; now apply quiet_outcome).
  rewrite (save_accepts m prompt body z w Hp Ht Hz (Hs _) (Hd _)).
  eexists; split; [reflexivity|].
  match goal with |- context [settings_cmd _ ?w1] => set (w' := w1) end.
  assert (Hb : bound (from_user_id m') z w').
  { rewrite Hm. destruct (upsert_lookup (from_user_id m) z (users w)) as (d & Hd1 & Hd2 & _).
    exists d. split; [|exact Hd2]. subst w'. autorewrite with world. exact Hd1. }
  assert (Hs' : outcome Store 0 w' = None) by (subst w'; autorewrite with world; apply Hs).
  assert (Hd' : outcome Send 0 w' = None) by (subst w'; autorewrite with world; apply Hd).
  assert (Hr' : outcome Relay 0 w' = None) by (subst w'; autorewrite with world; apply Hr).
  rewrite (settings_cmd_replies m' z w' Hb Hs' Hd').
  rewrite (relay_succeeds m' z w' Hc Hb Hne Hs' Hr').
  unfold relayed. simpl. autorewrite with world. simpl. autorewrite with world.
  repeat split; try reflexivity. apply shown_between_backquotes, Hne.
Qed.

Lemma configured_channel_is_used_witness :
  exists w', save_dump_channel (reply_message 5 " -1001 " prompt_text) (fresh ∅) = (Ok tt, w')
    /\ replies (trace (snd (settings_cmd (media_message 5 Photo) w')))
       = replies (trace w') ++ [settings_text (Some (-1001))]
    /\ Py.contains ("`" +:+ Py.str (-1001) +:+ "`") (settings_text (Some (-1001))) = true
    /\ fst (dump_handler (media_message 5 Photo) w') = Ok tt
    /\ relayed (snd (dump_handler (media_message 5 Photo) w')) = relayed w' ++ [-1001]
    /\ replies (trace (snd (dump_handler (media_message 5 Photo) w'))) = replies (trace w').
Proof.
  apply (configured_channel_is_used (reply_message 5 " -1001 " prompt_text)
           (media_message 5 Photo) prompt_text " -1001 " (-1001) (fresh ∅)); try reflexivity.
  - split; reflexivity.
  - discriminate.
Defined.

(** ** Decimal notation *)

Lemma digit_code_facts c :
  digit_code c ->
  Py.decimal c = Some (Z.of_N c - 48)
  /\ Py.isspace c = false /\ Py.int_space c = false
  /\ Py.encode c = String (ascii_of_N c) EmptyString
  /\ Py.chars (Py.encode c) = [c]
  /\ (forall r, match c :: r with
                | 45%N :: r' => Z.opp <$> Py.number r'
                | 43%N :: r' => Py.number r'
                | l => Py.number l
                end = Py.number (c :: r)).
Proof.
  intros (d & Hd & ->).
  assert (d = 0 \/ d = 1 \/ d = 2 \/ d = 3 \/ d = 4 \/ d = 5 \/ d = 6 \/ d = 7 \/ d = 8 \/ d = 9)%N
    as H by lia.
  repeat destruct H as [H|H]; subst d; repeat split; reflexivity.
Qed.

Lemma pretty_N_char_code d : (d < 10)%N -> ascii_of_N (48 + d) = pretty_N_char d.
Proof.
  intros Hd.
  assert (d = 0 \/ d = 1 \/ d = 2 \/ d = 3 \/ d = 4 \/ d = 5 \/ d = 6 \/ d = 7 \/ d = 8 \/ d = 9)%N
    as H by lia.
  repeat destruct H as [H|H]; subst d; reflexivity.
Qed.

Lemma append_cons x (a b : string) : String x a +:+ b = String x (a +:+ b).
Proof. reflexivity. Qed.

Lemma append_assoc (a b c : string) : (a +:+ b) +:+ c = a +:+ (b +:+ c).
Proof. induction a as [|x a IH]; [reflexivity|]. now rewrite !append_cons, IH. Qed.

Lemma append_empty (a : string) : a +:+ EmptyString = a.
Proof. induction a as [|x a IH]; [reflexivity|]. now rewrite append_cons, IH. Qed.

Lemma text_of_app l1 l2 : Py.text_of (l1 ++ l2) = Py.text_of l1 +:+ Py.text_of l2.
Proof.
  induction l1 as [|c l1 IH]; [reflexivity|]. cbn [app Py.text_of].
  now rewrite IH, append_assoc.
Qed.

(** The characters of a text made of digits are these digits. *)
Lemma chars_of_digits ds : Forall digit_code ds -> Py.chars (Py.text_of ds) = ds.
Proof.
  induction 1 as [|c ds Hc _ IH]; [reflexivity|].
  destruct (digit_code_facts c Hc) as (_ & _ & _ & He & _).
  destruct Hc as (d & Hd & ->).
  cbn [Py.text_of]. rewrite He, append_cons. change (EmptyString +:+ Py.text_of ds) with (Py.text_of ds).
  assert (Hb : Py.byte (ascii_of_N (48 + d)) = (48 + d)%N)
    by (apply N_ascii_embedding; lia).
  cbn [Py.chars]. cbv zeta. rewrite Hb.
  replace (48 + d <? 128)%N with true by (symmetry; apply N.ltb_lt; lia).
  now rewrite IH.
Qed.

Lemma lstrip_digits ds : Forall digit_code ds -> Py.lstrip ds = ds.
Proof.
  destruct 1 as [|c ds Hc _]; [reflexivity|]. simpl.
  destruct (digit_code_facts c Hc) as (_ & -> & _). reflexivity.
Qed.

Lemma drop_int_space_digits ds : Forall digit_code ds -> Py.drop_int_space ds = ds.
Proof.
  destruct 1 as [|c ds Hc _]; [reflexivity|]. simpl.
  destruct (digit_code_facts c Hc) as (_ & _ & -> & _). reflexivity.
Qed.

Lemma count_digits_digits ds : Forall digit_code ds -> Py.count_digits ds = length ds.
Proof.
  induction 1 as [|c ds Hc _ IH]; [reflexivity|].
  destruct (digit_code_facts c Hc) as (Hdec & _). cbn [Py.count_digits length].
  now rewrite Hdec, IH.
Qed.

(** What [pretty_N_go] writes in front of [s]: the digits of [x], which
    [digits] reads back. *)
Lemma digits_of_pretty x :
  (0 < x)%N ->
  exists ds, Forall digit_code ds /\ ds <> []
    /\ (forall s, pretty_N_go x s = Py.text_of ds +:+ s)
    /\ (forall acc b rest,
          Py.digits acc b (ds ++ rest)
          = Py.digits (acc * 10 ^ Z.of_nat (length ds) + Z.of_N x) true rest)
    /\ 10 ^ (Z.of_nat (length ds) - 1) <= Z.of_N x.
Proof.
  induction (N.lt_wf_0 x) as [x _ IH]. intros Hx.
  assert (Hmod : (x `mod` 10 < 10)%N) by (apply N.mod_lt; discriminate).
  set (c := (48 + x `mod` 10)%N).
  assert (Hc : digit_code c) by (exists (x `mod` 10)%N; split; [assumption|reflexivity]).
  destruct (digit_code_facts c Hc) as (Hdec & _ & _ & Henc & _).
  assert (Hval : Z.of_N c - 48 = Z.of_N (x `mod` 10)) by (subst c; lia).
  assert (Hx10 : Z.of_N x = 10 * Z.of_N (x `div` 10) + Z.of_N (x `mod` 10)).
  { rewrite <- N2Z.inj_mul with (n := 10%N), <- N2Z.inj_add. f_equal.
    apply N.div_mod. discriminate. }
  assert (Hstep : forall s,
    pretty_N_go x s = pretty_N_go (x `div` 10)%N (Py.encode c +:+ s)).
  { intros s. rewrite pretty_N_go_step by assumption. rewrite Henc. subst c.
    now rewrite pretty_N_char_code by assumption. }
  destruct (N.eq_dec (x `div` 10)%N 0%N) as [Hz|Hnz].
  - exists [c]. rewrite Hz in *. repeat split.
    + now constructor.
    + discriminate.
    + intros s. rewrite Hstep, pretty_N_go_0. cbn [Py.text_of]. now rewrite append_empty.
    + intros acc b rest. cbn [app Py.digits length]. rewrite Hdec. f_equal. lia.
    + cbn [length]. change (Z.of_nat 1 - 1) with 0. lia.
  - assert (Hpos : (0 < x `div` 10)%N) by lia.
    assert (Hlt : (x `div` 10 < x)%N) by (apply N.div_lt; [assumption|reflexivity]).
    destruct (IH _ Hlt Hpos) as (ds & Hds & Hne & Hgo & Hread & Hlow).
    exists (ds ++ [c]). repeat split.
    + apply Forall_app. split; [assumption|now constructor].
    + intros E. apply app_eq_nil in E as [_ E]. discriminate.
    + intros s. rewrite Hstep, Hgo, text_of_app. cbn [Py.text_of].
      now rewrite append_empty, append_assoc.
    + intros acc b rest. rewrite <- app_assoc. cbn [app]. rewrite Hread.
      cbn [Py.digits]. rewrite Hdec. f_equal. rewrite length_app. cbn [length].
      rewrite Nat2Z.inj_add, Z.pow_add_r by lia. change (10 ^ Z.of_nat 1) with 10. lia.
    + rewrite length_app. cbn [length].
      replace (Z.of_nat (length ds + 1) - 1) with (Z.of_nat (length ds) - 1 + 1) by lia.
      assert (0 < length ds)%nat by (destruct ds; [congruence|cbn; lia]).
      rewrite Z.pow_add_r by lia. change (10 ^ 1) with 10.
      pose proof (N2Z.is_nonneg (x `mod` 10)) as Hr.
      revert Hlow Hx10 Hr. generalize (10 ^ (Z.of_nat (length ds) - 1)).
      generalize (Z.of_N (x `div` 10)) (Z.of_N (x `mod` 10)) (Z.of_N x).
      intros; lia.
Qed.

(** [int(str(z).strip())] is [z] for a signed 64-bit integer: its notation
    has at most 19 digits, far below the 4300 that [int] accepts. *)
Lemma int_str z :
  - 2 ^ 63 <= z < 2 ^ 63 -> Py.int (Py.strip (Py.str z)) = Some z.
Proof.
  intros Hz.
  assert (Hpos : forall p, Z.pos p <= 2 ^ 63 ->
            exists ds, Forall digit_code ds /\ ds <> []
              /\ pretty_N_go (N.pos p) EmptyString = Py.text_of ds
              /\ Py.number ds = Some (Z.pos p)).
  { intros p Hp.
    destruct (digits_of_pretty (N.pos p) eq_refl) as (ds & Hds & Hne & Hgo & Hread & Hlow).
    exists ds. repeat split; try assumption.
    - now rewrite Hgo, append_empty.
    - unfold Py.number. rewrite (count_digits_digits ds Hds).
      assert (Hlen : (length ds <= 19)%nat).
      { destruct (le_lt_dec (length ds) 19) as [H|H]; [exact H|exfalso].
        assert (10 ^ 19 <= 10 ^ (Z.of_nat (length ds) - 1))
          by (apply Z.pow_le_mono_r; lia).
        change (Z.of_N (N.pos p)) with (Z.pos p) in Hlow.
        assert (2 ^ 63 < 10 ^ 19) by reflexivity. lia. }
      replace (Py.max_str_digits <? length ds)%nat with false
        by (symmetry; apply Nat.ltb_ge; unfold Py.max_str_digits; lia).
      specialize (Hread 0 false []). rewrite app_nil_r in Hread. rewrite Hread.
      reflexivity. }
  assert (Hstrip : forall ds, Forall digit_code ds ->
            Py.rstrip (Py.lstrip ds) = ds
            /\ rev (Py.drop_int_space (rev (Py.drop_int_space ds))) = ds).
  { intros ds Hds. unfold Py.rstrip.
    rewrite (lstrip_digits ds Hds), (drop_int_space_digits ds Hds).
    assert (Hrev : Forall digit_code (rev ds)) by now apply Forall_rev.
    rewrite (lstrip_digits _ Hrev), (drop_int_space_digits _ Hrev).
    now rewrite rev_involutive. }
  destruct z as [|p|p].
  - reflexivity.
  - destruct (Hpos p ltac:(lia)) as (ds & Hds & Hne & Htext & Hnum).
    destruct (Hstrip ds Hds) as [Hs1 Hs2].
    unfold Py.str, pretty, pretty_Z, pretty, pretty_positive, pretty, pretty_N.
    destruct (decide _); [discriminate|]. rewrite Htext.
    unfold Py.strip, Py.int. rewrite (chars_of_digits ds Hds), Hs1.
    rewrite (chars_of_digits ds Hds), Hs2.
    destruct Hds as [|c ds Hc Hds]; [congruence|].
    destruct (digit_code_facts c Hc) as (_ & _ & _ & _ & _ & ->). exact Hnum.
  - destruct (Hpos p ltac:(lia)) as (ds & Hds & Hne & Htext & Hnum).
    destruct (Hstrip ds Hds) as [Hs1 Hs2].
    unfold Py.str, pretty, pretty_Z, pretty, pretty_positive, pretty, pretty_N.
    destruct (decide _); [discriminate|]. rewrite Htext.
    change ("-" +:+ Py.text_of ds) with (Py.text_of (45%N :: ds)).
    assert (Hch : Py.chars (Py.text_of (45%N :: ds)) = 45%N :: ds).
    { change (Py.text_of (45%N :: ds)) with (String "-" (Py.text_of ds)).
      change (Py.chars (String "-" (Py.text_of ds)))
        with (45%N :: Py.chars (Py.text_of ds)).
      now rewrite (chars_of_digits ds Hds). }
    assert (Hst : Py.rstrip (Py.lstrip (45%N :: ds)) = 45%N :: ds
                  /\ rev (Py.drop_int_space (rev (Py.drop_int_space (45%N :: ds))))
                     = 45%N :: ds).
    { unfold Py.rstrip. change (Py.lstrip (45%N :: ds)) with (45%N :: ds).
      change (Py.drop_int_space (45%N :: ds)) with (45%N :: ds).
      cbn [rev].
      assert (Hrev : Forall digit_code (rev ds)) by now apply Forall_rev.
      assert (Hl : forall l, Forall digit_code l -> l <> [] ->
                Py.lstrip (l ++ [45%N]) = l ++ [45%N]
                /\ Py.drop_int_space (l ++ [45%N]) = l ++ [45%N]).
      { intros l Hl Hnel. destruct Hl as [|c l Hc Hl]; [congruence|]. cbn.
        destruct (digit_code_facts c Hc) as (_ & -> & -> & _). split; reflexivity. }
      destruct (Hl (rev ds) Hrev) as [-> ->].
      - intros E. apply (f_equal (@rev N)) in E. rewrite rev_involutive in E. now subst.
      - rewrite rev_app_distr, rev_involutive. split; reflexivity. }
    destruct Hst as [Hst1 Hst2].
    unfold Py.strip, Py.int. rewrite Hch, Hst1, Hch, Hst2, Hnum. reflexivity.
Qed.

(** X17.  The decimal notation of any integer that the store can hold (a
    signed 64-bit one), as the confirmation and the settings view print it,
    is read back by [int(message.text.strip())] as that integer:
    [save_dump_channel], when it is called with such a body, stores and
    confirms exactly that integer. *)
Theorem decimal_body_is_stored_as_written (m : Message) (prompt : string) (z : Z) (w : World) :
  answers_prompt m prompt -> text m = Some (Py.str z) ->
  - 2 ^ 63 <= z < 2 ^ 63 ->
  quiet Store w -> outcome Send 0 w = None ->
  exists w', save_dump_channel m w = (Ok tt, w')
    /\ fst (get_dump_channel (from_user_id m) w') = Ok (Some z)
    /\ replies (trace w') = replies (trace w) ++ [saved_text z].
Proof.
  intros Hp Ht Hz Hq Hd.
  assert (Hs : forall n, outcome Store n w = None) by (intros n; now apply quiet_outcome).
  rewrite (save_accepts m prompt (Py.str z) z w Hp Ht (int_str z Hz) (Hs _) Hd).
  eexists; split; [reflexivity|]. split.
  - destruct (upsert_lookup (from_user_id m) z (users w)) as (d & Hd1 & Hd2 & Hd3).
    erewrite get_reads; [reflexivity | | | exact Hd2 | exact Hd3].
    + autorewrite with world. apply Hs.
    + autorewrite with world. exact Hd1.
  - autorewrite with world. simpl. now autorewrite with world.
Qed.

Lemma decimal_body_is_stored_as_written_witness :
  exists w', save_dump_channel (reply_message 5 "-1001234567890" prompt_text) (fresh ∅)
             = (Ok tt, w')
    /\ fst (get_dump_channel 5 w') = Ok (Some (-1001234567890))
    /\ replies (trace w') = [saved_text (-1001234567890)].
Proof.
  apply (decimal_body_is_stored_as_written (reply_message 5 "-1001234567890" prompt_text)
           prompt_text (-1001234567890) (fresh ∅)); try reflexivity.
  - split; reflexivity.
  - split; [discriminate|reflexivity].
Defined.
